(** * builder.py: the portfolio pipeline (fetch, generate, package, deploy)

    A shallow embedding of [src/builder.py].  The three methods of
    [PortfolioCreator] are written in a state-and-exception monad over a
    [world] that holds the file system, the console and the logs of the calls
    made to the external collaborators (profile API, chat model, deployment
    command).  What the collaborators answer is given by an [Env]. *)

From Stdlib Require Import ZArith QArith Ascii String.
From stdpp Require Import gmap strings list fin_maps pretty.
Close Scope Q_scope.
Open Scope string_scope.
Open Scope list_scope.
Open Scope stdpp_scope.

(* ===================================================================== *)
(** ** Text

    A Python [str] is a Rocq [string], one [ascii] per code point; the model
    covers the code points below 256.  A text file holds the text handed to
    [write]. *)

Definition nl : string := String "010"%char "".
Definition dquote : string := String "034"%char "".

(** [str.strip()]: the white space of [str.isspace] among the code points
    below 256. *)
Definition py_isspace (c : ascii) : bool :=
  let n := N_of_ascii c in
  ((9 <=? n) && (n <=? 13) || (28 <=? n) && (n <=? 32)
   || (n =? 133) || (n =? 160))%N.

Fixpoint lstrip (s : string) : string :=
  match s with
  | String c r => if py_isspace c then lstrip r else s
  | EmptyString => EmptyString
  end.

Fixpoint rstrip (s : string) : string :=
  match s with
  | String c r =>
      match rstrip r with
      | EmptyString => if py_isspace c then EmptyString else String c EmptyString
      | r' => String c r'
      end
  | EmptyString => EmptyString
  end.

Definition strip (s : string) : string := rstrip (lstrip s).

(** [s.split(sep)] for a one-character separator. *)
Fixpoint split_on (sep : ascii) (s : string) : list string :=
  match s with
  | EmptyString => [EmptyString]
  | String c r =>
      if Ascii.eqb c sep then EmptyString :: split_on sep r
      else match split_on sep r with
           | h :: t => String c h :: t
           | [] => [String c EmptyString]
           end
  end.

Fixpoint join (sep : string) (l : list string) : string :=
  match l with
  | [] => ""
  | [x] => x
  | x :: r => x +:+ sep +:+ join sep r
  end.

Fixpoint spaces (n : nat) : string :=
  match n with
  | O => ""
  | S k => String " "%char (spaces k)
  end.

(* ===================================================================== *)
(** ** JSON values and [json.dumps] *)

#[warnings="-register-all"]
Inductive json : Type :=
| JNull
| JBool (b : bool)
| JInt (n : Z)
| JFloat (repr : string)   (* a float, carried by the text [float.__repr__] prints *)
| JStr (s : string)
| JList (l : list json)
| JDict (items : list (string * json)).

Definition hex_digit (n : N) : ascii :=
  match String.get (N.to_nat n) "0123456789abcdef" with
  | Some c => c
  | None => "0"%char
  end.

(** [json.encoder.ESCAPE_DCT] with the [\uXXXX] fallback of
    [encode_basestring_ascii]. *)
Definition escape_char (c : ascii) : string :=
  let n := N_of_ascii c in
  if (n =? 34)%N then "\" +:+ dquote
  else if (n =? 92)%N then "\\"
  else if (n =? 8)%N then "\b"
  else if (n =? 12)%N then "\f"
  else if (n =? 10)%N then "\n"
  else if (n =? 13)%N then "\r"
  else if (n =? 9)%N then "\t"
  else if ((32 <=? n) && (n <=? 126))%N then String c ""
  else "\u00" +:+ String (hex_digit (n / 16)) (String (hex_digit (n mod 16)) "").

Fixpoint escape_body (s : string) : string :=
  match s with
  | EmptyString => ""
  | String c r => escape_char c +:+ escape_body r
  end.

Definition encode_basestring_ascii (s : string) : string :=
  dquote +:+ escape_body s +:+ dquote.

(** [newline_indent] of [json.encoder._make_iterencode]: nothing without
    [indent], a line break and [indent * level] spaces with it. *)
Definition newline_indent (indent : option nat) (level : nat) : string :=
  match indent with
  | None => ""
  | Some k => nl +:+ spaces (k * level)
  end.

Definition item_separator (indent : option nat) : string :=
  match indent with
  | None => ", "
  | Some _ => ","
  end.

Fixpoint iterencode (indent : option nat) (level : nat) (o : json) : string :=
  match o with
  | JNull => "null"
  | JBool true => "true"
  | JBool false => "false"
  | JInt n => pretty n
  | JFloat r => r
  | JStr s => encode_basestring_ascii s
  | JList [] => "[]"
  | JList l =>
      "[" +:+ newline_indent indent (S level)
      +:+ join (item_separator indent +:+ newline_indent indent (S level))
               (map (iterencode indent (S level)) l)
      +:+ newline_indent indent level +:+ "]"
  | JDict [] => "{}"
  | JDict items =>
      "{" +:+ newline_indent indent (S level)
      +:+ join (item_separator indent +:+ newline_indent indent (S level))
               (map (λ kv, match kv with
                           | (k, v) => encode_basestring_ascii k +:+ ": "
                                       +:+ iterencode indent (S level) v
                           end) items)
      +:+ newline_indent indent level +:+ "}"
  end.

(** [json.dumps(obj)] and [json.dumps(obj, indent=n)]. *)
Definition json_dumps (obj : json) : string := iterencode None 0 obj.
Definition json_dumps_indent (n : nat) (obj : json) : string :=
  iterencode (Some n) 0 obj.

(* ===================================================================== *)
(** ** Paths and the file system

    A path is the list of its components from the root.  [joinpath] is
    [pathlib]'s [/] on POSIX: the right operand is split at the slashes, empty
    and ["."] components are dropped, [".."] is kept, and an operand that
    starts with a slash replaces the left one. *)

Abbreviation path := (list string).

Inductive node : Type :=
| Dir
| File (content : string).

#[global] Instance node_eq_dec : EqDecision node.
Proof. solve_decision. Defined.

Abbreviation fsmap := (gmap (list string) node).

Definition real_part (c : string) : bool :=
  negb (String.eqb c "") && negb (String.eqb c ".").

Definition parse_parts (s : string) : list string :=
  List.filter real_part (split_on "/" s).

Definition is_absolute (s : string) : bool :=
  match s with
  | String c _ => Ascii.eqb c "/"
  | EmptyString => false
  end.

Definition joinpath (base : path) (s : string) : path :=
  if is_absolute s then parse_parts s else base ++ parse_parts s.

(** Exceptions that reach the program. *)
Inductive exn : Type :=
| FileExistsError
| FileNotFoundError
| NotADirectoryError
| IsADirectoryError
| ValueError (msg : string)
| JSONDecodeError
| CollaboratorError (what : string).  (* raised inside requests, the chat client or subprocess *)

(** Name resolution from directory [cur]: every directory stepped through has
    to exist, [".."] steps to the parent; the last component itself is not
    looked up. *)
Fixpoint walk (m : fsmap) (cur : path) (parts : list string) : exn + path :=
  match parts with
  | [] => inr cur
  | n :: rest =>
      match m !! cur with
      | Some Dir => walk m (if String.eqb n ".." then removelast cur else cur ++ [n]) rest
      | Some (File _) => inl NotADirectoryError
      | None => inl FileNotFoundError
      end
  end.

(** [os.path.exists]. *)
Definition path_exists (m : fsmap) (name : path) : bool :=
  match walk m [] name with
  | inr p => bool_decide (is_Some (m !! p))
  | inl _ => false
  end.

(** [shutil.rmtree]: the directory and everything below it. *)
Definition rmtree (d : path) (m : fsmap) : fsmap :=
  filter (λ kv, ¬ d `prefix_of` kv.1) m.

(** The name under which [k] is an entry of directory [p], if it is one. *)
Definition child_name (p k : path) : option string :=
  match reverse k with
  | n :: rq => if bool_decide (reverse rq = p) then Some n else None
  | [] => None
  end.

Definition entries (m : fsmap) (p : path) : gset string :=
  set_omap (child_name p) (dom m).

(** [os.listdir(name)], as a set; [None] where it raises. *)
Definition os_listdir (m : fsmap) (name : path) : option (gset string) :=
  match walk m [] name with
  | inr p => match m !! p with
             | Some Dir => Some (entries m p)
             | _ => None
             end
  | inl _ => None
  end.

(** [open(name).read()]; [None] where it raises. *)
Definition read_text (m : fsmap) (name : path) : option string :=
  match walk m [] name with
  | inr p => match m !! p with
             | Some (File c) => Some c
             | _ => None
             end
  | inl _ => None
  end.

(** Every entry lies in a directory, and the root is one. *)
Definition well_formed (m : fsmap) : bool :=
  bool_decide (m !! [] = Some Dir)
  && forallb (λ kv, match kv.1 with
                    | [] => true
                    | _ => bool_decide (m !! removelast kv.1 = Some Dir)
                    end) (map_to_list m).

(* ===================================================================== *)
(** ** The external collaborators *)

(** [requests.Response]: [status_code], and what [.json()] gives ([None] when
    the body does not decode and [.json()] raises). *)
Record Response : Type := {
  status_code : Z;
  response_json : option json
}.

(** [langchain.schema] messages. *)
Inductive message : Type :=
| SystemMessage (content : string)
| HumanMessage (content : string).

(** A call of a [ChatOpenAI] client: its constructor arguments and the
    messages. *)
Record ChatCall : Type := {
  chat_api_key : string;
  temperature : Q;
  max_tokens : Z;
  chat_messages : list message
}.

(** [subprocess.CompletedProcess]. *)
Record CompletedProcess : Type := {
  returncode : Z;
  stdout : string;
  stderr : string
}.

(** A call of [subprocess.run]: the command, [cwd], and the file system the
    child process starts in. *)
Record ProcessCall : Type := {
  call_cmd : list string;
  call_cwd : path;
  call_fs : fsmap
}.

(** What the outside answers during one run. *)
Record Env : Type := {
  getenv : string → option string;                  (* [os.getenv] after [load_dotenv()] *)
  requests_get : string → exn + Response;            (* by URL *)
  chat_model : ChatCall → exn + string;              (* the [content] of the reply *)
  run_process : list string → path → fsmap → (exn + CompletedProcess) * fsmap;
  temp_names : list path                             (* the candidates [mkdtemp] draws *)
}.

(* ===================================================================== *)
(** ** The world and the monad *)

Record world : Type := {
  fs : fsmap;
  console : list string;          (* one entry per [print] *)
  http_log : list string;
  chat_log : list ChatCall;
  deploy_log : list ProcessCall
}.

Definition set_fs (f : fsmap → fsmap) (w : world) : world :=
  {| fs := f (fs w); console := console w; http_log := http_log w;
     chat_log := chat_log w; deploy_log := deploy_log w |}.

Definition add_console (line : string) (w : world) : world :=
  {| fs := fs w; console := console w ++ [line]; http_log := http_log w;
     chat_log := chat_log w; deploy_log := deploy_log w |}.

Definition log_http (url : string) (w : world) : world :=
  {| fs := fs w; console := console w; http_log := http_log w ++ [url];
     chat_log := chat_log w; deploy_log := deploy_log w |}.

Definition log_chat (c : ChatCall) (w : world) : world :=
  {| fs := fs w; console := console w; http_log := http_log w;
     chat_log := chat_log w ++ [c]; deploy_log := deploy_log w |}.

Definition log_deploy (c : ProcessCall) (w : world) : world :=
  {| fs := fs w; console := console w; http_log := http_log w;
     chat_log := chat_log w; deploy_log := deploy_log w ++ [c] |}.

Definition M (A : Type) : Type := world → (exn + A) * world.

Definition ret {A} (a : A) : M A := λ w, (inr a, w).
Definition raise {A} (e : exn) : M A := λ w, (inl e, w).
Definition bind {A B} (c : M A) (k : A → M B) : M B :=
  λ w, match c w with
       | (inr a, w') => k a w'
       | (inl e, w') => (inl e, w')
       end.

Notation "x <- c ;; k" := (bind c (λ x, k))
  (at level 100, c at next level, right associativity).
Notation "c ;;; k" := (bind c (λ _, k))
  (at level 100, right associativity).

(** [try: c except FileExistsError: pass]. *)
Definition pass_FileExistsError (c : M unit) : M unit :=
  λ w, match c w with
       | (inl FileExistsError, w') => (inr tt, w')
       | r => r
       end.

Definition print (line : string) : M unit :=
  λ w, (inr tt, add_console line w).

(** [os.mkdir]; gives back the directory made. *)
Definition os_mkdir (name : path) : M path :=
  λ w, match walk (fs w) [] name with
       | inl e => (inl e, w)
       | inr p =>
           match fs w !! p with
           | Some _ => (inl FileExistsError, w)
           | None => (inr p, set_fs <[p := Dir]> w)
           end
       end.

(** [os.makedirs(name)], [exist_ok] left at [False]: for the first [n]
    components of [name].  The parent is made first when it does not exist,
    a [FileExistsError] from that is passed over, then the directory itself
    is made. *)
Fixpoint makedirs_upto (name : path) (n : nat) : M unit :=
  match n with
  | O => _ <- os_mkdir [] ;; ret tt
  | S k =>
      (λ w, if path_exists (fs w) (take k name) then ret tt w
            else pass_FileExistsError (makedirs_upto name k) w) ;;;
      _ <- os_mkdir (take (S k) name) ;; ret tt
  end.

Definition os_makedirs (name : path) : M unit := makedirs_upto name (length name).

(** [open(name, "w")]: the file is created or emptied; the handle is the
    file's place. *)
Definition open_w (name : path) : M path :=
  λ w, match walk (fs w) [] name with
       | inl e => (inl e, w)
       | inr p =>
           match fs w !! p with
           | Some Dir => (inl IsADirectoryError, w)
           | _ => (inr p, set_fs <[p := File ""]> w)
           end
       end.

(** [file.write(text)]. *)
Definition file_write (file : path) (text : string) : M unit :=
  λ w, (inr tt, set_fs (alter (λ n, match n with
                                    | File c => File (c +:+ text)
                                    | Dir => Dir
                                    end) file) w).

(** [json.dump(obj, file)]. *)
Definition json_dump (obj : json) (file : path) : M unit :=
  file_write file (json_dumps obj).

(** [with open(name, "w") as file: body]. *)
Definition with_open_w {A} (name : path) (body : path → M A) : M A :=
  file <- open_w name ;; body file.

(** [tempfile.mkdtemp]: the first candidate that can be made; a candidate
    that exists is skipped. *)
Fixpoint mkdtemp (names : list path) : M path :=
  match names with
  | [] => raise FileExistsError
  | name :: rest =>
      λ w, match os_mkdir name w with
           | (inl FileExistsError, w') => mkdtemp rest w'
           | r => r
           end
  end.

(** [with tempfile.TemporaryDirectory() as temp_dir: body]: the directory is
    removed when the block is left, by return or by exception. *)
Definition with_TemporaryDirectory {A} (E : Env) (body : path → M A) : M A :=
  temp_dir <- mkdtemp (temp_names E) ;;
  λ w, match body temp_dir w with
       | (r, w') => (r, set_fs (rmtree temp_dir) w')
       end.

(** [subprocess.run(cmd, cwd=cwd, capture_output=True, text=True)]. *)
Definition subprocess_run (E : Env) (cmd : list string) (cwd : path) : M CompletedProcess :=
  λ w, match run_process E cmd cwd (fs w) with
       | (r, m') =>
           (r, set_fs (λ _, m')
                 (log_deploy {| call_cmd := cmd; call_cwd := cwd; call_fs := fs w |} w))
       end.

(** [requests.get(url)]. *)
Definition http_get (E : Env) (url : string) : M Response :=
  λ w, (requests_get E url, log_http url w).

(** [response.json()]. *)
Definition Response_json (r : Response) : M json :=
  match response_json r with
  | Some v => ret v
  | None => raise JSONDecodeError
  end.

(** [ChatOpenAI(...)(messages).content]. *)
Definition chat_call (E : Env) (c : ChatCall) : M string :=
  λ w, (chat_model E c, log_chat c w).

(* ===================================================================== *)
(** ** [class PortfolioCreator] *)

Record PortfolioCreator : Type := {
  vercel_token : string;
  openai_api_key : string
}.

Definition vercel_config (project_name : string) : json :=
  JDict [("name", JStr project_name);
         ("version", JInt 2);
         ("builds", JList [JDict [("src", JStr "index.html");
                                  ("use", JStr "@vercel/static")]])].

Definition deploy_to_vercel (E : Env) (self : PortfolioCreator)
    (html_content project_name : string) : M unit :=
  with_TemporaryDirectory E (λ temp_dir,
    let project_dir := joinpath temp_dir project_name in
    os_makedirs project_dir ;;;
    with_open_w (joinpath project_dir "index.html") (λ file,
      file_write file html_content) ;;;
    with_open_w (joinpath project_dir "vercel.json") (λ file,
      json_dump (vercel_config project_name) file) ;;;
    let cmd := ["vercel"; "--token"; vercel_token self; "-y"; "--prod"] in
    result <- subprocess_run E cmd project_dir ;;
    if (returncode result =? 0)%Z then
      print "Deployment successful!" ;;;
      print ("Your website is live at: " +:+ strip (stdout result))
    else
      print ("Deployment failed: " +:+ stderr result)).

Definition system_prompt : string :=
  "You are an expert web designer. Generate HTML and CSS code that is professional, aesthetically pleasing, and user-friendly.".

(** The f-string of [generate_website_content]: the fixed text up to the
    placeholder, whose lines after the first carry the eight spaces of the
    source's indentation, then the profile as indented JSON, then the last
    line break and indentation. *)
Definition prompt_head : string :=
  let br := nl +:+ spaces 8 in
  "Create a professional, elegant, and responsive portfolio website for a developer." +:+ br
  +:+ "The website should include a navigation bar, a header section with the user's name and a brief introduction," +:+ br
  +:+ "an About Me section with the user's profile image and a description, a Projects section showcasing the user's work," +:+ br
  +:+ "and a Contact section with a form. It should also include a footer with copyright information." +:+ br
  +:+ "The design should be modern, with a clean layout, appealing visuals, and subtle animations." +:+ br
  +:+ "Include the following information from the provided GitHub profile:" +:+ br
  +:+ "---" +:+ br.

Definition prompt (github_profile : json) : string :=
  prompt_head +:+ json_dumps_indent 2 github_profile +:+ nl +:+ spaces 8.

Definition generate_website_content (E : Env) (self : PortfolioCreator)
    (github_profile : json) : M string :=
  let messages := [SystemMessage system_prompt; HumanMessage (prompt github_profile)] in
  chat_call E {| chat_api_key := openai_api_key self;
                 temperature := 0.2%Q;
                 max_tokens := 2500;
                 chat_messages := messages |}.

Definition create_portfolio_for_github_user (E : Env) (self : PortfolioCreator)
    (username : string) : M unit :=
  response <- http_get E ("https://api.github.com/users/" +:+ username) ;;
  if negb (status_code response =? 200)%Z then
    print ("Error fetching GitHub profile data. Status code: "
           +:+ pretty (status_code response))
  else
    github_profile_data <- Response_json response ;;
    html_content <- generate_website_content E self github_profile_data ;;
    let project_name := username +:+ "-portfolio" in
    deploy_to_vercel E self html_content project_name.

(** The module as a script: the two credentials are read and checked, then
    the [__main__] block runs one cycle for the placeholder user. *)
Definition unset (v : option string) : bool :=
  match v with
  | None => true
  | Some s => String.eqb s ""
  end.

Definition script (E : Env) : M unit :=
  let VERCEL_TOKEN := getenv E "VERCEL_TOKEN" in
  let OPENAI_API_KEY := getenv E "OPENAI_API_KEY" in
  if unset VERCEL_TOKEN || unset OPENAI_API_KEY then
    raise (ValueError "Environment variables for VERCEL_TOKEN or OPENAI_API_KEY are not set.")
  else
    let github_username := "add_your_username" in
    let portfolio_creator :=
      {| vercel_token := default "" VERCEL_TOKEN;
         openai_api_key := default "" OPENAI_API_KEY |} in
    create_portfolio_for_github_user E portfolio_creator github_username.

(* ===================================================================== *)
(** ** Vocabulary of the statements *)

(** [well_formed] as a proposition. *)
Definition tree (m : fsmap) : Prop :=
  m !! [] = Some Dir ∧
  ∀ k, is_Some (m !! k) → k ≠ [] → m !! removelast k = Some Dir.

(** Two worlds that differ in the file system at most. *)
Definition same_logs (w w' : world) : Prop :=
  console w' = console w ∧ http_log w' = http_log w ∧
  chat_log w' = chat_log w ∧ deploy_log w' = deploy_log w.

(** A computation that leaves the console and the logs alone and keeps the
    file system a tree. *)
Definition fs_only {A} (c : M A) : Prop :=
  ∀ w r w', c w = (r, w') → same_logs w w' ∧ (tree (fs w) → tree (fs w')).

(** A slash in a name. *)
Fixpoint has_slash (s : string) : bool :=
  match s with
  | String c r => Ascii.eqb c "/" || has_slash r
  | EmptyString => false
  end.

(** The address [create_portfolio_for_github_user] fetches, and the call
    [generate_website_content] makes. *)
Definition profile_url (username : string) : string :=
  "https://api.github.com/users/" +:+ username.

Definition generation_call (self : PortfolioCreator) (github_profile : json) : ChatCall :=
  {| chat_api_key := openai_api_key self;
     temperature := 0.2%Q;
     max_tokens := 2500;
     chat_messages := [SystemMessage system_prompt; HumanMessage (prompt github_profile)] |}.

Definition fetch_error_line (status : Z) : string :=
  "Error fetching GitHub profile data. Status code: " +:+ pretty status.

(** What [deploy_to_vercel] prints for an outcome of the command. *)
Definition report (r : exn + CompletedProcess) : list string :=
  match r with
  | inl _ => []
  | inr result =>
      if (returncode result =? 0)%Z
      then ["Deployment successful!";
            "Your website is live at: " +:+ strip (stdout result)]
      else ["Deployment failed: " +:+ stderr result]
  end.

(** The project directory as the deployment command finds it: directory [p]
    holds the markup and the manifest, and nothing else. *)
Definition packaged (html_content project_name : string) (c : ProcessCall) : Prop :=
  ∃ p, walk (call_fs c) [] (call_cwd c) = inr p ∧
       call_fs c !! p = Some Dir ∧
       call_fs c !! (p ++ ["index.html"]) = Some (File html_content) ∧
       call_fs c !! (p ++ ["vercel.json"])
         = Some (File (json_dumps (vercel_config project_name))) ∧
       ∀ n, is_Some (call_fs c !! (p ++ [n])) → n = "index.html" ∨ n = "vercel.json".

(** The ways a call of [deploy_to_vercel] from world [w] ends: before the
    command is reached, or after exactly one call of it. *)
Inductive deploy_run (E : Env) (self : PortfolioCreator)
    (html_content project_name : string) (w : world) : (exn + unit) * world → Prop :=
| deploy_not_reached e w' :
    same_logs w w' →
    deploy_run E self html_content project_name w (inl e, w')
| deploy_reached c r m' w' :
    call_cmd c = ["vercel"; "--token"; vercel_token self; "-y"; "--prod"] →
    run_process E (call_cmd c) (call_cwd c) (call_fs c) = (r, m') →
    deploy_log w' = deploy_log w ++ [c] →
    http_log w' = http_log w →
    chat_log w' = chat_log w →
    console w' = console w ++ report r →
    (well_formed (fs w) = true → packaged html_content project_name c) →
    deploy_run E self html_content project_name w
      (match r with inl e => inl e | inr _ => inr tt end, w').

(* ===================================================================== *)
(** ** Scenarios

    A disk with [/tmp], and environments in which the profile API answers
    with a status and a body, the chat model with a reply or an exception,
    and the deployment command with an outcome. *)

Definition disk : fsmap := <[ ["tmp"] := Dir ]> {[ [] := Dir ]}.

Definition boot : world :=
  {| fs := disk; console := []; http_log := []; chat_log := []; deploy_log := [] |}.

Definition octocat_profile : json :=
  JDict [("login", JStr "octocat"); ("name", JStr "The Octocat")].

Definition scenario (status : Z) (body : option json) (reply : exn + string)
    (outcome : exn + CompletedProcess) : Env :=
  {| getenv := λ _, Some "secret";
     requests_get := λ _, inr {| status_code := status; response_json := body |};
     chat_model := λ _, reply;
     run_process := λ _ _ m, (outcome, m);
     temp_names := [["tmp"; "tmpk3x9"]] |}.

Definition creator : PortfolioCreator :=
  {| vercel_token := "secret"; openai_api_key := "secret" |}.

Definition live : CompletedProcess :=
  {| returncode := 0; stdout := "https://octocat-portfolio.vercel.app"; stderr := "" |}.

Definition rejected : CompletedProcess :=
  {| returncode := 1; stdout := ""; stderr := "Invalid token" |}.

Definition scenario_A : Env :=
  scenario 200 (Some octocat_profile) (inr "<html>...</html>") (inr live).
Definition scenario_B : Env :=
  scenario 404 None (inr "<html>...</html>") (inr live).
Definition scenario_C : Env :=
  scenario 200 (Some octocat_profile) (inl (CollaboratorError "RateLimitError")) (inr live).
Definition scenario_D : Env :=
  scenario 200 (Some octocat_profile) (inr "<html>...</html>") (inr rejected).

(** The project directory of scenarios A and D when the command starts. *)
Definition octocat_manifest : string :=
  json_dumps (JDict [("name", JStr "octocat-portfolio");
                     ("version", JInt 2);
                     ("builds", JList [JDict [("src", JStr "index.html");
                                              ("use", JStr "@vercel/static")]])]).

Definition octocat_call : ProcessCall :=
  {| call_cmd := ["vercel"; "--token"; "secret"; "-y"; "--prod"];
     call_cwd := ["tmp"; "tmpk3x9"; "octocat-portfolio"];
     call_fs :=
       <[ ["tmp"; "tmpk3x9"; "octocat-portfolio"; "vercel.json"] := File octocat_manifest ]>
       (<[ ["tmp"; "tmpk3x9"; "octocat-portfolio"; "index.html"] := File "<html>...</html>" ]>
       (<[ ["tmp"; "tmpk3x9"; "octocat-portfolio"] := Dir ]>
       (<[ ["tmp"; "tmpk3x9"] := Dir ]> disk))) |}.

(** An environment without the credentials. *)
Definition scenario_unset : Env :=
  {| getenv := λ _, None;
     requests_get := requests_get scenario_A;
     chat_model := chat_model scenario_A;
     run_process := run_process scenario_A;
     temp_names := temp_names scenario_A |}.

(* ===================================================================== *)
(** ** Vocabulary of the further properties *)

(** A computation under which a directory stays a directory. *)
Definition keeps_dirs {A} (c : M A) : Prop :=
  ∀ w r w' k, c w = (r, w') → fs w !! k = Some Dir → fs w' !! k = Some Dir.

(** Nothing but white space. *)
Fixpoint blank (s : string) : bool :=
  match s with
  | String c r => py_isspace c && blank r
  | EmptyString => true
  end.

(** The call [deploy_to_vercel] makes for a project name of one component
    [n], from a disk [m] on which it has made the temporary directory
    [temp_dir]. *)
Definition plain_call (self : PortfolioCreator) (html_content project_name : string)
    (temp_dir : path) (n : string) (m : fsmap) : ProcessCall :=
  {| call_cmd := ["vercel"; "--token"; vercel_token self; "-y"; "--prod"];
     call_cwd := temp_dir ++ [n];
     call_fs :=
       <[ (temp_dir ++ [n]) ++ ["vercel.json"]
          := File (json_dumps (vercel_config project_name)) ]>
       (<[ (temp_dir ++ [n]) ++ ["index.html"] := File html_content ]>
       (<[ temp_dir ++ [n] := Dir ]>
       (<[ temp_dir := Dir ]> m))) |}.

(** The call of scenario A when the project name is ["/srv/x"]. *)
Definition escaped_call : ProcessCall :=
  {| call_cmd := ["vercel"; "--token"; "secret"; "-y"; "--prod"];
     call_cwd := ["srv"; "x"];
     call_fs :=
       <[ ["srv"; "x"; "vercel.json"] := File (json_dumps (vercel_config "/srv/x")) ]>
       (<[ ["srv"; "x"; "index.html"] := File "<html>...</html>" ]>
       (<[ ["srv"; "x"] := Dir ]>
       (<[ ["srv"] := Dir ]>
       (<[ ["tmp"; "tmpk3x9"] := Dir ]> disk)))) |}.

(** A command that succeeds and prints white space only. *)
Definition silent : CompletedProcess :=
  {| returncode := 0; stdout := "  " +:+ nl; stderr := "" |}.

(** A computation that only adds entries to the disk. *)
Definition grows {A} (c : M A) : Prop :=
  ∀ w r w', c w = (r, w') → fs w ⊆ fs w'.



(* ===================================================================== *)
(** ** Name resolution *)

Lemma walk_app m cur a b :
  walk m cur (a ++ b) =
  match walk m cur a with
  | inr q => walk m q b
  | inl e => inl e
  end.
Proof.
  revert cur. induction a as [|n a IH]; intros cur; simpl; [done|].
  destruct (m !! cur) as [[|]|]; auto.
Qed.

(** Resolution only looks at directories, so it survives new entries. *)
Lemma walk_mono (m m' : fsmap) cur parts q :
  m ⊆ m' → walk m cur parts = inr q → walk m' cur parts = inr q.
Proof.
  intros Hsub. revert cur. induction parts as [|n rest IH]; intros cur; simpl; [done|].
  destruct (m !! cur) as [[|c]|] eqn:Hcur; try done.
  rewrite (lookup_weaken _ _ _ _ Hcur Hsub). apply IH.
Qed.

Lemma walk_child m p n :
  m !! p = Some Dir → n ≠ ".." → walk m p [n] = inr (p ++ [n]).
Proof.
  intros Hp Hn. simpl. rewrite Hp.
  apply String.eqb_neq in Hn. by rewrite Hn.
Qed.

(** In a tree, a name of at least one component resolves to something that
    exists or to a missing entry of an existing directory. *)
Lemma walk_lands m cur parts p :
  tree m → parts ≠ [] → walk m cur parts = inr p →
  is_Some (m !! p) ∨ (p ≠ [] ∧ m !! removelast p = Some Dir).
Proof.
  intros [Hroot Htree]. revert cur.
  induction parts as [|n rest IH]; intros cur Hne; [done|]. simpl.
  destruct (m !! cur) as [[|c]|] eqn:Hcur; try done.
  destruct rest as [|n' rest'].
  - simpl. intros [= <-]. destruct (String.eqb n "..").
    + left. destruct cur as [|a cur' _] using rev_ind; [simpl; by rewrite Hroot|].
      rewrite <- (removelast_last cur' a) at 1.
      rewrite removelast_last at 1.
      rewrite Htree; [done| by rewrite Hcur | by destruct cur'].
    + right. rewrite removelast_last. split; [by destruct cur | done].
  - apply IH. done.
Qed.

(* ===================================================================== *)
(** ** Well-formed file systems *)

Lemma well_formed_tree m : well_formed m = true ↔ tree m.
Proof.
  unfold well_formed, tree. rewrite andb_true_iff, bool_decide_eq_true.
  apply and_iff_compat_l. rewrite forallb_forall. split.
  - intros H k [v Hk] Hne.
    specialize (H (k, v)). simpl in H.
    destruct k as [|a k']; [done|].
    eapply bool_decide_eq_true_1, H.
    apply list_elem_of_In, elem_of_map_to_list. done.
  - intros H [k v] Hin. simpl.
    apply list_elem_of_In, elem_of_map_to_list in Hin.
    destruct k as [|a k']; [done|].
    apply bool_decide_eq_true_2, H; [by rewrite Hin | done].
Qed.

(** What is not a directory has nothing below it. *)
Lemma tree_no_child m p n :
  tree m → m !! p ≠ Some Dir → m !! (p ++ [n]) = None.
Proof.
  intros [_ Htree] Hp.
  destruct (m !! (p ++ [n])) as [v|] eqn:Hc; [|done].
  exfalso. apply Hp. rewrite <- (removelast_last p n).
  apply Htree; [by rewrite Hc | by destruct p].
Qed.

(** A new entry, or a new content for a file, in an existing directory. *)
Lemma tree_insert m k v :
  tree m → k ≠ [] → m !! removelast k = Some Dir → m !! k ≠ Some Dir →
  tree (<[k := v]> m).
Proof.
  intros Hm Hne Hpar Hk. pose proof Hm as [Hroot Htree]. split.
  - by rewrite lookup_insert_ne.
  - intros k' Hk' Hne'.
    assert (removelast k' ≠ k) as Hrk.
    { intros <-. destruct k' as [|a k''] using rev_ind; [done|].
      rewrite removelast_last in *.
      destruct (decide (k'' ++ [a] = k'')) as [Heq|Hneq].
      - apply (f_equal length) in Heq. rewrite length_app in Heq. simpl in Heq. lia.
      - rewrite lookup_insert_ne in Hk' by done.
        rewrite (tree_no_child m k'' a Hm Hk) in Hk'. by destruct Hk'. }
    rewrite lookup_insert_ne by done.
    destruct (decide (k' = k)) as [->|Hkk]; [done|].
    rewrite lookup_insert_ne in Hk' by done. by apply Htree.
Qed.

(* ===================================================================== *)
(** ** The file operations touch the file system only *)

Lemma same_logs_refl w : same_logs w w.
Proof. by repeat split. Qed.

Lemma same_logs_trans w1 w2 w3 :
  same_logs w1 w2 → same_logs w2 w3 → same_logs w1 w3.
Proof. unfold same_logs. intuition congruence. Qed.

Lemma same_logs_set_fs f w : same_logs w (set_fs f w).
Proof. by repeat split. Qed.

Lemma fs_only_ret {A} (a : A) : fs_only (ret a).
Proof. intros w r w' [= <- <-]. split; [apply same_logs_refl | done]. Qed.

Lemma fs_only_raise {A} e : fs_only (@raise A e).
Proof. intros w r w' [= <- <-]. split; [apply same_logs_refl | done]. Qed.

Lemma fs_only_bind {A B} (c : M A) (k : A → M B) :
  fs_only c → (∀ a, fs_only (k a)) → fs_only (bind c k).
Proof.
  intros Hc Hk w r w'. unfold bind.
  destruct (c w) as [[e|a] w1] eqn:Hcw; specialize (Hc _ _ _ Hcw) as [Hl Ht].
  - by intros [= <- <-].
  - intros Hkw. specialize (Hk _ _ _ _ Hkw) as [Hl' Ht'].
    split; [by eapply same_logs_trans | auto].
Qed.

Lemma fs_only_pass c : fs_only c → fs_only (pass_FileExistsError c).
Proof.
  intros Hc w r w'. unfold pass_FileExistsError.
  destruct (c w) as [[e|a] w1] eqn:Hcw; specialize (Hc _ _ _ Hcw);
    [destruct e|]; by intros [= <- <-].
Qed.

Lemma os_mkdir_cases name w :
  (∃ e, os_mkdir name w = (inl e, w)) ∨
  (∃ p, os_mkdir name w = (inr p, set_fs <[p := Dir]> w) ∧
        walk (fs w) [] name = inr p ∧ fs w !! p = None).
Proof.
  unfold os_mkdir. destruct (walk (fs w) [] name) as [e|p] eqn:Hwalk; [eauto|].
  destruct (fs w !! p) eqn:Hp; eauto.
Qed.

(** A directory that [os_mkdir] makes hangs in the tree. *)
Lemma tree_mkdir m name p :
  tree m → walk m [] name = inr p → m !! p = None → tree (<[p := Dir]> m).
Proof.
  intros Hm Hwalk Hp.
  destruct name as [|n name'].
  - simpl in Hwalk. injection Hwalk as <-. destruct Hm as [Hroot _]. congruence.
  - destruct (walk_lands m [] (n :: name') p Hm) as [[v Hv]|[Hne Hpar]];
      [done | done | congruence |].
    apply tree_insert; [done | done | done | congruence].
Qed.

Lemma fs_only_os_mkdir name : fs_only (os_mkdir name).
Proof.
  intros w r w' H.
  destruct (os_mkdir_cases name w) as [[e He]|(p & Hmk & Hwalk & Hp)];
    rewrite H in *; simplify_eq.
  - split; [apply same_logs_refl | done].
  - split; [apply same_logs_set_fs |]. simpl. intros Hm. by eapply tree_mkdir.
Qed.

Lemma fs_only_makedirs_upto name n : fs_only (makedirs_upto name n).
Proof.
  induction n as [|k IH]; simpl.
  - apply fs_only_bind; [apply fs_only_os_mkdir | intros; apply fs_only_ret].
  - apply fs_only_bind.
    + intros w r w'. destruct (path_exists (fs w) (take k name)).
      * apply fs_only_ret.
      * by apply fs_only_pass.
    + intros _. apply fs_only_bind; [apply fs_only_os_mkdir | intros; apply fs_only_ret].
Qed.

Lemma fs_only_mkdtemp names : fs_only (mkdtemp names).
Proof.
  induction names as [|name rest IH]; simpl; [apply fs_only_raise|].
  intros w r w'.
  destruct (os_mkdir name w) as [[e|p] w1] eqn:Hmk;
    pose proof (fs_only_os_mkdir _ _ _ _ Hmk) as [Hl Ht].
  - destruct e; try by intros [= <- <-].
    intros Hrest. specialize (IH _ _ _ Hrest) as [Hl' Ht'].
    split; [by eapply same_logs_trans | auto].
  - by intros [= <- <-].
Qed.

(** The directory [mkdtemp] gives back is one it has just made. *)
Lemma mkdtemp_made names w d w' :
  mkdtemp names w = (inr d, w') → fs w !! d = None ∧ fs w' !! d = Some Dir.
Proof.
  revert w. induction names as [|name rest IH]; intros w; simpl; [done|].
  destruct (os_mkdir_cases name w) as [[e He]|(p & Hmk & Hwalk & Hp)].
  - rewrite He. destruct e; try done. apply IH.
  - rewrite Hmk. intros [= <- <-]. simpl. by rewrite lookup_insert_eq.
Qed.

Lemma fs_only_open_w name : fs_only (open_w name).
Proof.
  intros w r w'. unfold open_w.
  destruct (walk (fs w) [] name) as [e|p] eqn:Hwalk.
  { intros [= <- <-]. split; [apply same_logs_refl | done]. }
  assert (tree (fs w) → fs w !! p ≠ Some Dir → tree (<[p := File ""]> (fs w))) as Hins.
  { intros Hm Hp. destruct name as [|n name'].
    - simpl in Hwalk. injection Hwalk as <-. by destruct Hm.
    - destruct (walk_lands (fs w) [] (n :: name') p Hm) as [Hv|[Hne Hpar]];
        [done | done | | by apply tree_insert].
      assert (p ≠ []) by (intros ->; by destruct Hm).
      apply tree_insert; [done | done | | done]. by apply Hm. }
  destruct (fs w !! p) as [[|c]|] eqn:Hp; intros [= <- <-];
    (split; [first [apply same_logs_refl | apply same_logs_set_fs] | try done]);
    simpl; intros Hm; apply Hins; congruence.
Qed.

Lemma fs_only_file_write file text : fs_only (file_write file text).
Proof.
  intros w r w' [= <- <-]. split; [apply same_logs_set_fs|].
  simpl. set (f := λ n, match n with File c => File (c +:+ text) | Dir => Dir end).
  assert (∀ k, alter f file (fs w) !! k = Some Dir ↔ fs w !! k = Some Dir) as Hdir.
  { intros k. rewrite lookup_alter. case_decide; [subst|done].
    destruct (fs w !! k) as [[|c]|]; simpl; naive_solver. }
  intros [Hroot Htree]. split; [by apply Hdir|].
  intros k Hk Hne. apply Hdir, Htree; [|done].
  rewrite lookup_alter in Hk. case_decide; [subst|done].
  by apply fmap_is_Some in Hk.
Qed.

Lemma fs_only_write_text name text :
  fs_only (with_open_w name (λ file, file_write file text)).
Proof.
  apply fs_only_bind; [apply fs_only_open_w | intros; apply fs_only_file_write].
Qed.

(* ===================================================================== *)
(** ** What the file operations make *)

(** [os.makedirs] returns only after making the directory itself: it is
    there, new and empty. *)
Lemma os_makedirs_made name w w' :
  tree (fs w) → os_makedirs name w = (inr tt, w') →
  ∃ p, walk (fs w') [] name = inr p ∧ fs w' !! p = Some Dir ∧
       (∀ n, fs w' !! (p ++ [n]) = None) ∧ tree (fs w').
Proof.
  intros Hm. unfold os_makedirs.
  destruct (length name) as [|k] eqn:Hlen; simpl; unfold bind.
  - destruct (os_mkdir_cases [] w) as [[e He]|(p & Hmk & Hwalk & Hp)].
    + by rewrite He.
    + simpl in Hwalk. injection Hwalk as <-. destruct Hm. congruence.
  - rewrite <- Hlen, firstn_all.
    destruct (if path_exists (fs w) (take k name) then ret tt w
              else pass_FileExistsError (makedirs_upto name k) w)
      as [[e|[]] w1] eqn:Hpar; [done|].
    assert (tree (fs w1)) as Hm1.
    { destruct (path_exists (fs w) (take k name)).
      - by injection Hpar as <-.
      - by apply (fs_only_pass _ (fs_only_makedirs_upto name k) _ _ _ Hpar). }
    destruct (os_mkdir_cases name w1) as [[e He]|(p & Hmk & Hwalk & Hp)];
      rewrite ?He, ?Hmk; [done|].
    intros [= <-]. exists p. simpl. split_and!.
    + eapply walk_mono; [|done]. by apply insert_subseteq.
    + by rewrite lookup_insert_eq.
    + intros n. rewrite lookup_insert_ne.
      * apply tree_no_child; [done | congruence].
      * intros Heq. apply (f_equal length) in Heq. rewrite length_app in Heq.
        simpl in Heq. lia.
    + by eapply tree_mkdir.
Qed.

(** Writing a text under a name that is free, or a file, in directory [p]. *)
Lemma write_text_made dir n text w p :
  walk (fs w) [] dir = inr p → fs w !! p = Some Dir → n ≠ ".." →
  fs w !! (p ++ [n]) ≠ Some Dir →
  with_open_w (dir ++ [n]) (λ file, file_write file text) w
  = (inr tt, set_fs <[p ++ [n] := File text]> w).
Proof.
  intros Hwalk Hp Hn Hfree. unfold with_open_w, bind, open_w.
  rewrite walk_app, Hwalk, (walk_child _ _ _ Hp Hn).
  assert (∀ v, alter (λ n0, match n0 with File c => File (c +:+ text) | Dir => Dir end)
                 (p ++ [n]) (<[p ++ [n] := File ""]> (fs v)) = <[p ++ [n] := File text]> (fs v))
    as Halt by (intros v; by rewrite alter_insert_eq).
  destruct (fs w !! (p ++ [n])) as [[|c]|] eqn:Hk; [done| |];
    unfold file_write, set_fs; simpl; by rewrite Halt.
Qed.

(* ===================================================================== *)
(** ** [deploy_to_vercel] *)

Lemma joinpath_index_html base : joinpath base "index.html" = base ++ ["index.html"].
Proof. reflexivity. Qed.

Lemma joinpath_vercel_json base : joinpath base "vercel.json" = base ++ ["vercel.json"].
Proof. reflexivity. Qed.

(** Every call of [deploy_to_vercel] ends in one of the ways of
    [deploy_run]. *)
Lemma deploy_to_vercel_run E self html_content project_name w :
  deploy_run E self html_content project_name w
    (deploy_to_vercel E self html_content project_name w).
Proof.
  unfold deploy_to_vercel, with_TemporaryDirectory, json_dump. unfold bind at 1.
  destruct (mkdtemp (temp_names E) w) as [[e|temp_dir] w1] eqn:Htmp.
  { apply deploy_not_reached. by eapply fs_only_mkdtemp. }
  pose proof (fs_only_mkdtemp _ _ _ _ Htmp) as [Hl1 Ht1].
  rewrite joinpath_index_html, joinpath_vercel_json.
  set (project_dir := joinpath temp_dir project_name).
  set (manifest := json_dumps (vercel_config project_name)).
  unfold bind at 1.
  destruct (os_makedirs project_dir w1) as [[e|[]] w2] eqn:Hmk;
    pose proof (fs_only_makedirs_upto _ _ _ _ _ Hmk) as [Hl2 Ht2].
  { apply deploy_not_reached.
    eauto using same_logs_trans, same_logs_set_fs. }
  unfold bind at 1.
  destruct (with_open_w (project_dir ++ ["index.html"])
              (λ file, file_write file html_content) w2) as [[e|[]] w3] eqn:Hix;
    pose proof (fs_only_write_text _ _ _ _ _ Hix) as [Hl3 Ht3].
  { apply deploy_not_reached.
    eauto using same_logs_trans, same_logs_set_fs. }
  unfold bind at 1.
  destruct (with_open_w (project_dir ++ ["vercel.json"])
              (λ file, file_write file manifest) w3) as [[e|[]] w4] eqn:Hvj;
    pose proof (fs_only_write_text _ _ _ _ _ Hvj) as [Hl4 Ht4].
  { apply deploy_not_reached.
    eauto using same_logs_trans, same_logs_set_fs. }
  assert (same_logs w w4) as (Hc & Hh & Hg & Hd)
    by eauto using same_logs_trans.
  set (cmd := ["vercel"; "--token"; vercel_token self; "-y"; "--prod"]).
  set (c := {| call_cmd := cmd; call_cwd := project_dir; call_fs := fs w4 |}).
  assert (well_formed (fs w) = true → packaged html_content project_name c) as Hpack.
  { intros Hwf%well_formed_tree.
    destruct (os_makedirs_made _ _ _ (Ht1 Hwf) Hmk) as (p & Hwalk & Hp & Hempty & Hm2).
    rewrite (write_text_made _ _ _ _ p) in Hix; [|done|done|done|by rewrite Hempty].
    injection Hix as <-.
    assert (p ++ ["vercel.json"] ≠ p ++ ["index.html"]) as Hne
      by (by intros [= ?]%app_inv_head).
    assert (p ≠ p ++ ["index.html"]) as Hne'.
    { intros Heq. apply (f_equal length) in Heq. rewrite length_app in Heq.
      simpl in Heq. lia. }
    rewrite (write_text_made _ _ _ _ p) in Hvj; simpl; cycle 1.
    { eapply walk_mono; [|done]. apply insert_subseteq. apply Hempty. }
    { by rewrite lookup_insert_ne. }
    { done. }
    { rewrite lookup_insert_ne by done. by rewrite Hempty. }
    injection Hvj as <-. exists p. simpl. split_and!.
    - eapply walk_mono; [|eapply walk_mono; [|done]].
      + apply insert_subseteq. rewrite lookup_insert_ne by done. apply Hempty.
      + apply insert_subseteq. apply Hempty.
    - rewrite !lookup_insert_ne; [done|done|].
      intros Heq. apply (f_equal length) in Heq. rewrite length_app in Heq.
      simpl in Heq. lia.
    - rewrite lookup_insert_ne by done. by rewrite lookup_insert_eq.
    - by rewrite lookup_insert_eq.
    - intros n Hn.
      destruct (decide (n = "vercel.json")) as [|Hn1]; [by right|].
      destruct (decide (n = "index.html")) as [|Hn2]; [by left|].
      rewrite !lookup_insert_ne, Hempty in Hn; [by destruct Hn| |];
        intros [= ?]%app_inv_head; done. }
  unfold bind at 1, subprocess_run.
  destruct (run_process E cmd project_dir (fs w4)) as [[e|result] m'] eqn:Hrun.
  { apply (deploy_reached E self html_content project_name w c (inl e) m');
      simpl; try done.
    - by rewrite Hd.
    - by rewrite Hc, app_nil_r. }
  destruct (returncode result =? 0)%Z eqn:Hrc.
  - apply (deploy_reached E self html_content project_name w c (inr result) m');
      simpl; try done.
    + by rewrite Hd.
    + by rewrite Hrc, Hc, <- app_assoc.
  - apply (deploy_reached E self html_content project_name w c (inr result) m');
      simpl; try done.
    + by rewrite Hd.
    + by rewrite Hrc, Hc.
Qed.

(* ===================================================================== *)
(** ** [create_portfolio_for_github_user] *)

Lemma generate_website_content_call E self github_profile w :
  generate_website_content E self github_profile w
  = (chat_model E (generation_call self github_profile),
     log_chat (generation_call self github_profile) w).
Proof. reflexivity. Qed.

(** The run, step by step. *)
Lemma create_portfolio_steps E self username w :
  create_portfolio_for_github_user E self username w =
  let w1 := log_http (profile_url username) w in
  match requests_get E (profile_url username) with
  | inl e => (inl e, w1)
  | inr response =>
      if (status_code response =? 200)%Z then
        match response_json response with
        | None => (inl JSONDecodeError, w1)
        | Some profile =>
            let w2 := log_chat (generation_call self profile) w1 in
            match chat_model E (generation_call self profile) with
            | inl e => (inl e, w2)
            | inr html_content =>
                deploy_to_vercel E self html_content (username +:+ "-portfolio") w2
            end
        end
      else (inr tt, add_console (fetch_error_line (status_code response)) w1)
  end.
Proof.
  unfold create_portfolio_for_github_user, bind, http_get, Response_json.
  fold (profile_url username).
  destruct (requests_get E (profile_url username)) as [e|response]; [done|].
  destruct (status_code response =? 200)%Z; cbn [negb]; [|done].
  destruct (response_json response) as [profile|]; [|done]. unfold ret.
  rewrite generate_website_content_call.
  by destruct (chat_model E (generation_call self profile)).
Qed.

Lemma rmtree_gone d m q : d `prefix_of` q → rmtree d m !! q = None.
Proof.
  intros Hpre. unfold rmtree. apply map_lookup_filter_None. right.
  intros x _ Hnot. by apply Hnot.
Qed.

Lemma log_grew {A} (l : list A) (c : A) : l ≠ l ++ [c].
Proof.
  intros Heq. apply (f_equal length) in Heq. rewrite length_app in Heq.
  simpl in Heq. lia.
Qed.

(** A call of [deploy_to_vercel] that reached the command, taken apart. *)
Lemma deploy_reached_inv E self html_content project_name w r w' c :
  deploy_to_vercel E self html_content project_name w = (r, w') →
  deploy_log w' = deploy_log w ++ [c] →
  ∃ out m',
    run_process E (call_cmd c) (call_cwd c) (call_fs c) = (out, m') ∧
    call_cmd c = ["vercel"; "--token"; vercel_token self; "-y"; "--prod"] ∧
    r = match out with inl e => inl e | inr _ => inr tt end ∧
    console w' = console w ++ report out ∧
    http_log w' = http_log w ∧ chat_log w' = chat_log w ∧
    (well_formed (fs w) = true → packaged html_content project_name c).
Proof.
  intros Hrun Hlog.
  pose proof (deploy_to_vercel_run E self html_content project_name w) as Hcase.
  rewrite Hrun in Hcase. inversion Hcase as [e w0 Hsame|c0 out m' w0 Hcmd Hout Hlog0]; subst.
  - destruct Hsame as (_ & _ & _ & Hd). rewrite Hd in Hlog. by apply log_grew in Hlog.
  - rewrite Hlog0 in Hlog. apply app_inj_tail in Hlog as [_ ->].
    exists out, m'. by split_and!.
Qed.

(** [deploy_to_vercel] makes no call of the chat model. *)
Lemma deploy_keeps_chat_log E self html_content project_name w r w' :
  deploy_to_vercel E self html_content project_name w = (r, w') →
  chat_log w' = chat_log w.
Proof.
  intros Hrun.
  pose proof (deploy_to_vercel_run E self html_content project_name w) as Hcase.
  rewrite Hrun in Hcase.
  inversion Hcase as [e w0 Hsame|c0 out m' w0 _ _ _ _ Hchat]; subst; [|done].
  by destruct Hsame as (_ & _ & -> & _).
Qed.

Lemma read_text_child m dir p n text :
  walk m [] dir = inr p → m !! p = Some Dir → n ≠ ".." →
  m !! (p ++ [n]) = Some (File text) → read_text m (dir ++ [n]) = Some text.
Proof.
  intros Hwalk Hp Hn Hfile. unfold read_text.
  by rewrite walk_app, Hwalk, (walk_child _ _ _ Hp Hn), Hfile.
Qed.

Lemma child_name_Some p k n : child_name p k = Some n ↔ k = p ++ [n].
Proof.
  unfold child_name. destruct k as [|a k' _] using rev_ind.
  - simpl. split; [done|]. by destruct p.
  - rewrite reverse_snoc, reverse_involutive. case_bool_decide; split.
    + intros [= ->]. by subst.
    + intros [-> ->]%app_inj_tail. done.
    + done.
    + intros [-> ->]%app_inj_tail. done.
Qed.

Lemma elem_of_entries m p n : n ∈ entries m p ↔ is_Some (m !! (p ++ [n])).
Proof.
  unfold entries. rewrite elem_of_set_omap. split.
  - intros (k & Hk & Hn). apply child_name_Some in Hn as ->. by apply elem_of_dom.
  - intros Hn. exists (p ++ [n]). split; [by apply elem_of_dom | by apply child_name_Some].
Qed.

(* ===================================================================== *)
(** ** The command is reached *)

Lemma walk_no_climb m cur parts p :
  ".." ∉ cur → walk m cur parts = inr p → ".." ∉ p.
Proof.
  revert cur. induction parts as [|n rest IH]; intros cur Hcur; simpl.
  - by intros [= <-].
  - destruct (m !! cur) as [[|c]|]; try done.
    apply IH. destruct (String.eqb_spec n "..") as [->|Hn].
    + intros Hin. apply Hcur. destruct cur as [|a cur' _] using rev_ind; [done|].
      rewrite removelast_last in Hin. apply elem_of_app. by left.
    + intros [Hin|Hin%list_elem_of_singleton]%elem_of_app; [by apply Hcur | by apply Hn].
Qed.

(** In a tree, an entry without [".."] in its path is reached under its own
    path. *)
Lemma walk_self m p :
  tree m → ".." ∉ p → is_Some (m !! p) → walk m [] p = inr p.
Proof.
  intros Hm. induction p as [|n q IH] using rev_ind; intros Hclimb Hp; [done|].
  assert (m !! q = Some Dir) as Hq.
  { rewrite <- (removelast_last q n). apply Hm; [done | by destruct q]. }
  rewrite walk_app, IH; [|set_solver|by rewrite Hq].
  apply walk_child; [done|set_solver].
Qed.

Lemma mkdtemp_result names w d w' :
  mkdtemp names w = (inr d, w') →
  w' = set_fs <[d := Dir]> w ∧ fs w !! d = None ∧ ".." ∉ d.
Proof.
  revert w. induction names as [|name rest IH]; intros w; simpl; [done|].
  destruct (os_mkdir_cases name w) as [[e He]|(p & Hmk & Hwalk & Hp)].
  - rewrite He. destruct e; try done. apply IH.
  - rewrite Hmk. intros [= <- <-]. split_and!; [done|done|].
    eapply walk_no_climb; [|done]. set_solver.
Qed.

(** Making a new directory in an existing one needs one [os.mkdir]. *)
Lemma os_makedirs_child d n w :
  tree (fs w) → fs w !! d = Some Dir → ".." ∉ d → n ≠ ".." → fs w !! (d ++ [n]) = None →
  os_makedirs (d ++ [n]) w = (inr tt, set_fs <[d ++ [n] := Dir]> w).
Proof.
  intros Hm Hd Hclimb Hn Hfree. unfold os_makedirs.
  rewrite length_app, Nat.add_1_r. simpl. unfold bind.
  rewrite take_app_length. unfold path_exists.
  rewrite (walk_self _ _ Hm Hclimb) by (by rewrite Hd).
  rewrite Hd. simpl.
  rewrite take_ge by (rewrite length_app; simpl; lia).
  unfold os_mkdir.
  rewrite walk_app, (walk_self _ _ Hm Hclimb) by (by rewrite Hd).
  by rewrite (walk_child _ _ _ Hd Hn), Hfree.
Qed.

Lemma longer_ne {A} (l k : list A) (a : A) : l ++ a :: k ≠ l.
Proof.
  intros Heq. apply (f_equal length) in Heq. rewrite length_app in Heq.
  simpl in Heq. lia.
Qed.

(** For a project name of one component, on a tree in which the temporary
    directory can be made, [deploy_to_vercel] gets as far as the command and
    calls it in the project directory. *)
Lemma deploy_to_vercel_reaches_command E self html_content project_name w temp_dir n :
  well_formed (fs w) = true →
  (mkdtemp (temp_names E) w).1 = inr temp_dir →
  joinpath temp_dir project_name = temp_dir ++ [n] → n ≠ ".." →
  ∃ c, deploy_log (deploy_to_vercel E self html_content project_name w).2
         = deploy_log w ++ [c] ∧
       call_cwd c = temp_dir ++ [n].
Proof.
  intros Hm%well_formed_tree Htmp Hjoin Hn.
  destruct (mkdtemp (temp_names E) w) as [r1 w1] eqn:Hmk. simpl in Htmp. subst r1.
  destruct (mkdtemp_result _ _ _ _ Hmk) as (-> & Hfresh & Hclimb).
  assert (tree (<[temp_dir := Dir]> (fs w))) as Hm1
    by (by apply (fs_only_mkdtemp _ _ _ _ Hmk)).
  set (project_dir := temp_dir ++ [n]).
  assert (temp_dir ≠ project_dir) as Hne1 by (symmetry; apply longer_ne).
  assert (∀ x, project_dir ≠ project_dir ++ [x]) as Hne2
    by (intros x; symmetry; apply longer_ne).
  assert (∀ x, temp_dir ≠ project_dir ++ [x]) as Hne3.
  { intros x. unfold project_dir. rewrite <- app_assoc. symmetry. apply longer_ne. }
  assert (fs w !! project_dir = None) as Hfresh'
    by (apply tree_no_child; [done | by rewrite Hfresh]).
  assert (∀ x, fs w !! (project_dir ++ [x]) = None) as Hfresh''
    by (intros x; apply tree_no_child; [done | by rewrite Hfresh']).
  assert (".." ∉ project_dir) as Hclimb'.
  { intros [Hin|Hin%list_elem_of_singleton]%elem_of_app; [by apply Hclimb | by apply Hn]. }
  set (m1 := <[temp_dir := Dir]> (fs w)) in *.
  set (m2 := <[project_dir := Dir]> m1).
  assert (m1 !! project_dir = None) as Hfree1
    by (unfold m1; by rewrite lookup_insert_ne).
  assert (tree m2) as Hm2.
  { apply tree_insert; [done | by destruct temp_dir | | by rewrite Hfree1].
    unfold project_dir, m1. by rewrite removelast_last, lookup_insert_eq. }
  assert (m2 !! project_dir = Some Dir) as Hpd2 by apply lookup_insert_eq.
  assert (∀ x, m2 !! (project_dir ++ [x]) = None) as Hfree2.
  { intros x. unfold m2, m1. by rewrite !lookup_insert_ne. }
  assert (walk m2 [] project_dir = inr project_dir) as Hwalk2
    by (apply walk_self; [done | done | by rewrite Hpd2]).
  set (m3 := <[project_dir ++ ["index.html"] := File html_content]> m2).
  assert (m2 ⊆ m3) as Hsub by (by apply insert_subseteq).
  unfold deploy_to_vercel, with_TemporaryDirectory, json_dump. unfold bind at 1.
  rewrite Hmk, joinpath_index_html, joinpath_vercel_json, Hjoin. fold project_dir.
  unfold bind at 1. unfold project_dir at 1.
  rewrite os_makedirs_child;
    [|done|by apply lookup_insert_eq|done|done|done].
  fold project_dir. unfold bind at 1.
  rewrite (write_text_made _ _ _ _ project_dir);
    [|done|done|done|simpl; fold m1 m2; by rewrite Hfree2].
  unfold bind at 1.
  rewrite (write_text_made _ _ _ _ project_dir); cycle 1.
  { simpl. fold m1 m2 m3. by eapply walk_mono. }
  { simpl. fold m1 m2 m3. by eapply lookup_weaken. }
  { done. }
  { simpl. fold m1 m2 m3. unfold m3.
    rewrite lookup_insert_ne by (by intros [= ?]%app_inv_head).
    by rewrite Hfree2. }
  unfold bind at 1, subprocess_run. simpl.
  match goal with |- context [run_process E ?cmd ?cwd ?m] =>
    destruct (run_process E cmd cwd m) as [[e|result] m'] end.
  - eexists. split; [done|done].
  - destruct (returncode result =? 0)%Z; eexists; split; done.
Qed.

(** A name without a slash is one component. *)
Lemma split_on_slash_free s : has_slash s = false → split_on "/" s = [s].
Proof.
  induction s as [|c r IH]; simpl; [done|].
  intros [Hc Hr]%orb_false_elim. rewrite Hc. by rewrite (IH Hr).
Qed.

Lemma has_slash_app a b : has_slash (a +:+ b) = has_slash a || has_slash b.
Proof. induction a as [|c r IH]; simpl; [done|]. by rewrite IH, orb_assoc. Qed.

Lemma length_append a b :
  String.length (a +:+ b) = (String.length a + String.length b)%nat.
Proof. induction a as [|c r IH]; simpl; [done|]. by rewrite IH. Qed.

(** The project name of a user name without a slash names a directory right
    in the base directory. *)
Lemma joinpath_portfolio base username :
  has_slash username = false →
  joinpath base (username +:+ "-portfolio") = base ++ [username +:+ "-portfolio"] ∧
  username +:+ "-portfolio" ≠ "..".
Proof.
  intros Hslash.
  assert (10 ≤ String.length (username +:+ "-portfolio"))%nat as Hlen
    by (rewrite length_append; simpl; lia).
  assert (has_slash (username +:+ "-portfolio") = false) as Hslash'
    by (by rewrite has_slash_app, Hslash).
  assert (∀ short, (String.length short < 10)%nat → username +:+ "-portfolio" ≠ short) as Hne
    by (intros short Hshort Heq; rewrite Heq in Hlen; lia).
  split; [|apply Hne; simpl; lia].
  unfold joinpath, parse_parts. rewrite (split_on_slash_free _ Hslash').
  replace (is_absolute (username +:+ "-portfolio")) with false.
  - simpl. unfold real_part.
    destruct (String.eqb_spec (username +:+ "-portfolio") "") as [Heq|_];
      [by apply Hne in Heq; simpl; try lia|].
    destruct (String.eqb_spec (username +:+ "-portfolio") ".") as [Heq|_];
      [by apply Hne in Heq; simpl; try lia|].
    done.
  - destruct (username +:+ "-portfolio") as [|c r]; [done|]. simpl in *.
    by apply orb_false_elim in Hslash' as [-> _].
Qed.

(** What [mkdtemp] does depends on the file system only. *)
Lemma mkdtemp_same_fs names w v :
  fs w = fs v → (mkdtemp names w).1 = (mkdtemp names v).1.
Proof.
  revert w v. induction names as [|name rest IH]; intros w v Hfs; simpl; [done|].
  unfold os_mkdir. rewrite <- Hfs.
  destruct (walk (fs w) [] name) as [e|p]; [destruct e; simpl; auto|].
  destruct (fs w !! p); simpl; [by apply IH | done].
Qed.

(** The whole pipeline: for a user name without a slash, when the profile
    is fetched and decoded, the chat model answers, and the temporary
    directory can be made on a tree, the deployment command is called, in
    the project directory named after the user. *)
Lemma pipeline_reaches_command E self username w response profile html_content temp_dir :
  well_formed (fs w) = true →
  has_slash username = false →
  requests_get E (profile_url username) = inr response →
  status_code response = 200%Z →
  response_json response = Some profile →
  chat_model E (generation_call self profile) = inr html_content →
  (mkdtemp (temp_names E) w).1 = inr temp_dir →
  ∃ c, deploy_log (create_portfolio_for_github_user E self username w).2
         = deploy_log w ++ [c] ∧
       call_cwd c = temp_dir ++ [username +:+ "-portfolio"].
Proof.
  intros Hwf Hslash Hget Hstatus Hbody Hchat Htmp.
  rewrite create_portfolio_steps, Hget, Hstatus, Hbody. cbv zeta. rewrite Hchat.
  destruct (joinpath_portfolio temp_dir username Hslash) as [Hjoin Hne].
  apply (deploy_to_vercel_reaches_command E self html_content _
           (log_chat (generation_call self profile) (log_http (profile_url username) w)));
    try done.
  by rewrite <- Htmp; apply mkdtemp_same_fs.
Qed.

(* ===================================================================== *)
(** ** The claims *)

(** C1.  When the profile fetch answers with a status other than 200,
    [create_portfolio_for_github_user] prints the fetch error with that
    status and returns; no call of the chat model and no call of the
    deployment command is made, and the file system is untouched. *)
Theorem fetch_failure_skips_generation_and_deployment E self username w response :
  requests_get E ("https://api.github.com/users/" +:+ username) = inr response →
  status_code response ≠ 200%Z →
  ∃ w', create_portfolio_for_github_user E self username w = (inr tt, w') ∧
        console w' = console w ++
          ["Error fetching GitHub profile data. Status code: "
           +:+ pretty (status_code response)] ∧
        chat_log w' = chat_log w ∧ deploy_log w' = deploy_log w ∧ fs w' = fs w.
Proof.
  intros Hget Hstatus. rewrite create_portfolio_steps. unfold profile_url. rewrite Hget.
  apply Z.eqb_neq in Hstatus. rewrite Hstatus. eexists. by split_and!.
Qed.

Lemma status_404_is_reported :
  ∃ w', create_portfolio_for_github_user scenario_B creator "octocat" boot = (inr tt, w') ∧
        console w' = ["Error fetching GitHub profile data. Status code: 404"] ∧
        chat_log w' = [] ∧ deploy_log w' = [] ∧ fs w' = disk.
Proof.
  apply (fetch_failure_skips_generation_and_deployment scenario_B creator "octocat" boot
           {| status_code := 404; response_json := None |}).
  - reflexivity.
  - simpl. lia.
Defined.

(** C2.  Whatever way [deploy_to_vercel] ends (the command succeeded, the
    command failed, or an exception went through), the temporary directory
    that it made, and everything below it, is gone afterwards. *)
Theorem temporary_directory_removed E self html_content project_name w temp_dir :
  (mkdtemp (temp_names E) w).1 = inr temp_dir →
  fs (mkdtemp (temp_names E) w).2 !! temp_dir = Some Dir ∧
  ∀ q, temp_dir `prefix_of` q →
       fs (deploy_to_vercel E self html_content project_name w).2 !! q = None.
Proof.
  destruct (mkdtemp (temp_names E) w) as [r1 w1] eqn:Htmp. simpl. intros ->.
  split; [by eapply mkdtemp_made|].
  intros q Hq. unfold deploy_to_vercel, with_TemporaryDirectory. unfold bind at 1.
  rewrite Htmp.
  match goal with |- context [let (_, _) := ?body in _] => destruct body as [r w'] end.
  simpl. by apply rmtree_gone.
Qed.

Lemma tempdir_gone_after_failed_deployment :
  fs (mkdtemp (temp_names scenario_D) boot).2 !! ["tmp"; "tmpk3x9"] = Some Dir ∧
  ∀ q, ["tmp"; "tmpk3x9"] `prefix_of` q →
       fs (deploy_to_vercel scenario_D creator "<html>...</html>" "octocat-portfolio" boot).2
         !! q = None.
Proof.
  apply (temporary_directory_removed scenario_D creator "<html>...</html>"
           "octocat-portfolio" boot ["tmp"; "tmpk3x9"]).
  vm_compute. reflexivity.
Defined.

(** C3.  At the call of the deployment command, [index.html] in the project
    directory holds exactly the string the chat model returned for the
    request of this run. *)
Theorem markup_written_verbatim E self username w r w' c :
  well_formed (fs w) = true →
  create_portfolio_for_github_user E self username w = (r, w') →
  deploy_log w' = deploy_log w ++ [c] →
  ∃ request html_content,
    chat_log w' = chat_log w ++ [request] ∧
    chat_model E request = inr html_content ∧
    read_text (call_fs c) (call_cwd c ++ ["index.html"]) = Some html_content.
Proof.
  intros Hwf. rewrite create_portfolio_steps. cbv zeta.
  destruct (requests_get E (profile_url username)) as [e|response];
    [intros [= <- <-] Hlog; by apply log_grew in Hlog|].
  destruct (status_code response =? 200)%Z;
    [|intros [= <- <-] Hlog; by apply log_grew in Hlog].
  destruct (response_json response) as [profile|];
    [|intros [= <- <-] Hlog; by apply log_grew in Hlog].
  destruct (chat_model E (generation_call self profile)) as [e|html_content] eqn:Hchat;
    [intros [= <- <-] Hlog; by apply log_grew in Hlog|].
  intros Hrun Hlog.
  destruct (deploy_reached_inv _ _ _ _ _ _ _ _ Hrun Hlog)
    as (out & m' & _ & _ & _ & _ & _ & Hchatlog & Hpack).
  destruct (Hpack Hwf) as (p & Hwalk & Hp & Hindex & _).
  exists (generation_call self profile), html_content. split_and!; [done|done|].
  by eapply read_text_child.
Qed.

Lemma octocat_markup_on_disk :
  ∃ request html_content,
    chat_log (create_portfolio_for_github_user scenario_A creator "octocat" boot).2
      = [request] ∧
    chat_model scenario_A request = inr html_content ∧
    read_text (call_fs octocat_call) (call_cwd octocat_call ++ ["index.html"])
      = Some html_content.
Proof.
  apply (markup_written_verbatim scenario_A creator "octocat" boot
           (create_portfolio_for_github_user scenario_A creator "octocat" boot).1
           (create_portfolio_for_github_user scenario_A creator "octocat" boot).2
           octocat_call).
  - vm_compute. reflexivity.
  - vm_compute. reflexivity.
  - vm_compute. reflexivity.
Defined.



(** C5.  When [deploy_to_vercel] calls the deployment command, the project
    directory, the command's working directory, has the two entries
    [index.html] and [vercel.json] and no other, and both are files. *)
Theorem project_directory_holds_two_files E self html_content project_name w r w' c :
  well_formed (fs w) = true →
  deploy_to_vercel E self html_content project_name w = (r, w') →
  deploy_log w' = deploy_log w ++ [c] →
  os_listdir (call_fs c) (call_cwd c) = Some ({["index.html"; "vercel.json"]} : gset string) ∧
  is_Some (read_text (call_fs c) (call_cwd c ++ ["index.html"])) ∧
  is_Some (read_text (call_fs c) (call_cwd c ++ ["vercel.json"])).
Proof.
  intros Hwf Hrun Hlog.
  destruct (deploy_reached_inv _ _ _ _ _ _ _ _ Hrun Hlog)
    as (out & m' & _ & _ & _ & _ & _ & _ & Hpack).
  destruct (Hpack Hwf) as (p & Hwalk & Hp & Hindex & Hmanifest & Honly).
  split_and!.
  - unfold os_listdir. rewrite Hwalk, Hp. f_equal. apply set_eq. intros n.
    rewrite elem_of_entries. split.
    + intros [->| ->]%Honly; set_solver.
    + intros [->%elem_of_singleton| ->%elem_of_singleton]%elem_of_union;
        [by rewrite Hindex | by rewrite Hmanifest].
  - by erewrite read_text_child.
  - by erewrite read_text_child.
Qed.

Lemma octocat_project_directory_listing :
  os_listdir (call_fs octocat_call) (call_cwd octocat_call)
    = Some ({["index.html"; "vercel.json"]} : gset string) ∧
  is_Some (read_text (call_fs octocat_call) (call_cwd octocat_call ++ ["index.html"])) ∧
  is_Some (read_text (call_fs octocat_call) (call_cwd octocat_call ++ ["vercel.json"])).
Proof.
  apply (project_directory_holds_two_files scenario_D creator "<html>...</html>"
           "octocat-portfolio" boot
           (deploy_to_vercel scenario_D creator "<html>...</html>" "octocat-portfolio" boot).1
           (deploy_to_vercel scenario_D creator "<html>...</html>" "octocat-portfolio" boot).2
           octocat_call).
  - vm_compute. reflexivity.
  - vm_compute. reflexivity.
  - vm_compute. reflexivity.
Defined.




(** A run in which the chat model was called and raised: the exception goes
    to the caller, after the two calls have been logged and nothing else. *)
Lemma generation_failure_steps E self username w r w' request e :
  create_portfolio_for_github_user E self username w = (r, w') →
  chat_log w' = chat_log w ++ [request] →
  chat_model E request = inl e →
  r = inl e ∧ w' = log_chat request (log_http (profile_url username) w).
Proof.
  rewrite create_portfolio_steps. cbv zeta.
  destruct (requests_get E (profile_url username)) as [e0|response];
    [intros [= <- <-] Hlog; by apply log_grew in Hlog|].
  destruct (status_code response =? 200)%Z;
    [|intros [= <- <-] Hlog; by apply log_grew in Hlog].
  destruct (response_json response) as [profile|];
    [|intros [= <- <-] Hlog; by apply log_grew in Hlog].
  destruct (chat_model E (generation_call self profile)) as [e0|html_content] eqn:Hchat.
  - intros [= <- <-]. simpl. intros [_ <-]%app_inj_tail Hraise. split; congruence.
  - intros Hrun Hlog Hraise. exfalso.
    apply deploy_keeps_chat_log in Hrun. simpl in Hrun.
    rewrite Hrun in Hlog. apply app_inj_tail in Hlog as [_ <-]. congruence.
Qed.

(** C8, as the code has it.  Every error ends the run.  A fetch error and a
    deployment error are printed and the method returns; a configuration
    error and a generation error are exceptions that go to the caller, and
    the program prints nothing for them. *)
Theorem errors_are_terminal :
  (∀ E w,
     unset (getenv E "VERCEL_TOKEN") || unset (getenv E "OPENAI_API_KEY") = true →
     script E w
     = (inl (ValueError
               "Environment variables for VERCEL_TOKEN or OPENAI_API_KEY are not set."), w)) ∧
  (∀ E self username w response,
     requests_get E ("https://api.github.com/users/" +:+ username) = inr response →
     status_code response ≠ 200%Z →
     ∃ w', create_portfolio_for_github_user E self username w = (inr tt, w') ∧
           console w' = console w ++
             ["Error fetching GitHub profile data. Status code: "
              +:+ pretty (status_code response)] ∧
           chat_log w' = chat_log w ∧ deploy_log w' = deploy_log w) ∧
  (∀ E self username w r w' request e,
     create_portfolio_for_github_user E self username w = (r, w') →
     chat_log w' = chat_log w ++ [request] →
     chat_model E request = inl e →
     r = inl e ∧ console w' = console w ∧ deploy_log w' = deploy_log w) ∧
  (∀ E self html_content project_name w r w' c result m',
     deploy_to_vercel E self html_content project_name w = (r, w') →
     deploy_log w' = deploy_log w ++ [c] →
     run_process E (call_cmd c) (call_cwd c) (call_fs c) = (inr result, m') →
     returncode result ≠ 0%Z →
     r = inr tt ∧
     console w' = console w ++ ["Deployment failed: " +:+ stderr result]).
Proof.
  split_and!.
  - intros E w Hunset. unfold script. by rewrite Hunset.
  - intros E self username w response Hget Hstatus.
    rewrite create_portfolio_steps. unfold profile_url. rewrite Hget.
    apply Z.eqb_neq in Hstatus. rewrite Hstatus. eexists. by split_and!.
  - intros E self username w r w' request e Hrun Hlog Hraise.
    destruct (generation_failure_steps _ _ _ _ _ _ _ _ Hrun Hlog Hraise) as [-> ->].
    by split_and!.
  - intros E self html_content project_name w r w' c result m' Hrun Hlog Hout Hrc.
    destruct (deploy_reached_inv _ _ _ _ _ _ _ _ Hrun Hlog)
      as (out & m0 & Hout0 & _ & -> & Hconsole & _).
    rewrite Hout in Hout0. injection Hout0 as <- <-.
    split; [done|]. rewrite Hconsole. simpl.
    apply Z.eqb_neq in Hrc. by rewrite Hrc.
Qed.

Lemma each_error_kind_ends_its_run :
  script scenario_unset boot
  = (inl (ValueError
            "Environment variables for VERCEL_TOKEN or OPENAI_API_KEY are not set."), boot) ∧
  (∃ w', create_portfolio_for_github_user scenario_B creator "octocat" boot = (inr tt, w') ∧
         console w' = ["Error fetching GitHub profile data. Status code: 404"] ∧
         chat_log w' = [] ∧ deploy_log w' = []) ∧
  ((create_portfolio_for_github_user scenario_C creator "octocat" boot).1
   = inl (CollaboratorError "RateLimitError") ∧
   console (create_portfolio_for_github_user scenario_C creator "octocat" boot).2 = [] ∧
   deploy_log (create_portfolio_for_github_user scenario_C creator "octocat" boot).2 = []) ∧
  ((deploy_to_vercel scenario_D creator "<html>...</html>" "octocat-portfolio" boot).1
   = inr tt ∧
   console (deploy_to_vercel scenario_D creator "<html>...</html>" "octocat-portfolio" boot).2
   = ["Deployment failed: Invalid token"]).
Proof.
  destruct errors_are_terminal as (Hconfiguration & Hfetch & Hgeneration & Hdeployment).
  split; [|split; [|split]].
  - apply (Hconfiguration scenario_unset boot). reflexivity.
  - apply (Hfetch scenario_B creator "octocat" boot
             {| status_code := 404; response_json := None |}).
    + reflexivity.
    + simpl. lia.
  - apply (Hgeneration scenario_C creator "octocat" boot
             (create_portfolio_for_github_user scenario_C creator "octocat" boot).1
             (create_portfolio_for_github_user scenario_C creator "octocat" boot).2
             (generation_call creator octocat_profile)
             (CollaboratorError "RateLimitError")).
    + vm_compute. reflexivity.
    + vm_compute. reflexivity.
    + reflexivity.
  - apply (Hdeployment scenario_D creator "<html>...</html>" "octocat-portfolio" boot
             (deploy_to_vercel scenario_D creator "<html>...</html>" "octocat-portfolio" boot).1
             (deploy_to_vercel scenario_D creator "<html>...</html>" "octocat-portfolio" boot).2
             octocat_call rejected (call_fs octocat_call)).
    + vm_compute. reflexivity.
    + vm_compute. reflexivity.
    + reflexivity.
    + simpl. lia.
Defined.

(** C8, as the spec words it, fails: in scenario C the chat model raises, and
    [create_portfolio_for_github_user] hands the exception to its caller and
    prints nothing. *)
Lemma generation_error_reaches_the_caller :
  (create_portfolio_for_github_user scenario_C creator "octocat" boot).1
  = inl (CollaboratorError "RateLimitError") ∧
  console (create_portfolio_for_github_user scenario_C creator "octocat" boot).2 = [].
Proof. split; vm_compute; reflexivity. Qed.

(** C9.  When the chat model raises, the exception ends the run: the file
    system is as it was, no temporary directory and no file has been made,
    and the deployment command has not been called. *)
Theorem generation_failure_aborts_before_packaging E self username w r w' request e :
  create_portfolio_for_github_user E self username w = (r, w') →
  chat_log w' = chat_log w ++ [request] →
  chat_model E request = inl e →
  r = inl e ∧ fs w' = fs w ∧ deploy_log w' = deploy_log w.
Proof.
  intros Hrun Hlog Hraise.
  destruct (generation_failure_steps _ _ _ _ _ _ _ _ Hrun Hlog Hraise) as [-> ->].
  by split_and!.
Qed.

Lemma rate_limit_aborts_before_packaging :
  (create_portfolio_for_github_user scenario_C creator "octocat" boot).1
  = inl (CollaboratorError "RateLimitError") ∧
  fs (create_portfolio_for_github_user scenario_C creator "octocat" boot).2 = disk ∧
  deploy_log (create_portfolio_for_github_user scenario_C creator "octocat" boot).2 = [].
Proof.
  apply (generation_failure_aborts_before_packaging scenario_C creator "octocat" boot
           (create_portfolio_for_github_user scenario_C creator "octocat" boot).1
           (create_portfolio_for_github_user scenario_C creator "octocat" boot).2
           (generation_call creator octocat_profile)
           (CollaboratorError "RateLimitError")).
  - vm_compute. reflexivity.
  - vm_compute. reflexivity.
  - reflexivity.
Defined.

(** C10.  When the profile fetch answers 200 with a body that does not decode
    as JSON, [create_portfolio_for_github_user] raises the decoding error to
    its caller; it prints nothing, and calls neither the chat model nor the
    deployment command. *)
Theorem undecodable_profile_raises E self username w response :
  requests_get E ("https://api.github.com/users/" +:+ username) = inr response →
  status_code response = 200%Z →
  response_json response = None →
  ∃ w', create_portfolio_for_github_user E self username w = (inl JSONDecodeError, w') ∧
        console w' = console w ∧
        chat_log w' = chat_log w ∧ deploy_log w' = deploy_log w.
Proof.
  intros Hget Hstatus Hbody. rewrite create_portfolio_steps. unfold profile_url.
  rewrite Hget, Hstatus, Hbody. simpl. eexists. by split_and!.
Qed.

Lemma undecodable_body_raises :
  ∃ w', create_portfolio_for_github_user (scenario 200 None (inr "<html>...</html>") (inr live))
          creator "octocat" boot = (inl JSONDecodeError, w') ∧
        console w' = [] ∧ chat_log w' = [] ∧ deploy_log w' = [].
Proof.
  apply (undecodable_profile_raises (scenario 200 None (inr "<html>...</html>") (inr live))
           creator "octocat" boot {| status_code := 200; response_json := None |});
    reflexivity.
Defined.

(* ===================================================================== *)
(** ** The scenarios of the specification, run *)

(** Scenario A: the live address is reported. *)
Example scenario_A_run :
  (create_portfolio_for_github_user scenario_A creator "octocat" boot).1 = inr tt ∧
  console (create_portfolio_for_github_user scenario_A creator "octocat" boot).2
  = ["Deployment successful!";
     "Your website is live at: https://octocat-portfolio.vercel.app"].
Proof. split; vm_compute; reflexivity. Qed.

(** Scenario B: status 404 is printed, and no call is made. *)
Example scenario_B_run :
  console (create_portfolio_for_github_user scenario_B creator "octocat" boot).2
  = ["Error fetching GitHub profile data. Status code: 404"] ∧
  chat_log (create_portfolio_for_github_user scenario_B creator "octocat" boot).2 = [] ∧
  deploy_log (create_portfolio_for_github_user scenario_B creator "octocat" boot).2 = [].
Proof. split_and!; vm_compute; reflexivity. Qed.

(** Scenario D: the error text is printed, and the temporary directory is
    gone. *)
Example scenario_D_run :
  console (create_portfolio_for_github_user scenario_D creator "octocat" boot).2
  = ["Deployment failed: Invalid token"] ∧
  fs (create_portfolio_for_github_user scenario_D creator "octocat" boot).2
    !! ["tmp"; "tmpk3x9"] = None.
Proof. split; vm_compute; reflexivity. Qed.

(** Project names that are not a plain name: the empty name raises, since the
    project directory then is the temporary directory itself; a name that
    climbs out leaves the project directory behind. *)
Example empty_project_name :
  (deploy_to_vercel scenario_A creator "<html>...</html>" "" boot).1 = inl FileExistsError ∧
  fs (deploy_to_vercel scenario_A creator "<html>...</html>" "" boot).2
    !! ["tmp"; "tmpk3x9"] = None.
Proof. split; vm_compute; reflexivity. Qed.

Example climbing_project_name :
  fs (deploy_to_vercel scenario_A creator "<html>...</html>" "../x" boot).2
    !! ["tmp"; "tmpk3x9"] = None ∧
  fs (deploy_to_vercel scenario_A creator "<html>...</html>" "../x" boot).2
    !! ["tmp"; "x"; "index.html"] = Some (File "<html>...</html>").
Proof. split; vm_compute; reflexivity. Qed.

(** The command cannot be started: [subprocess.run] raises, the exception
    leaves [deploy_to_vercel], nothing is printed, and the temporary directory
    is gone all the same. *)
Example missing_command :
  let E := scenario 200 (Some octocat_profile) (inr "<html>...</html>")
             (inl FileNotFoundError) in
  (deploy_to_vercel E creator "<html>...</html>" "octocat-portfolio" boot).1
  = inl FileNotFoundError ∧
  console (deploy_to_vercel E creator "<html>...</html>" "octocat-portfolio" boot).2 = [] ∧
  fs (deploy_to_vercel E creator "<html>...</html>" "octocat-portfolio" boot).2
    !! ["tmp"; "tmpk3x9"] = None.
Proof. split_and!; vm_compute; reflexivity. Qed.

(* ===================================================================== *)
(** ** Directories stay *)

Lemma keeps_dirs_ret {A} (a : A) : keeps_dirs (ret a).
Proof. by intros w r w' k [= <- <-]. Qed.

Lemma keeps_dirs_bind {A B} (c : M A) (f : A → M B) :
  keeps_dirs c → (∀ a, keeps_dirs (f a)) → keeps_dirs (bind c f).
Proof.
  intros Hc Hf w r w' k. unfold bind.
  destruct (c w) as [[e|a] w1] eqn:Hcw.
  - intros [= <- <-]. by eapply Hc.
  - intros Hfw Hk. eapply Hf; [done|]. by eapply Hc.
Qed.

Lemma keeps_dirs_pass c : keeps_dirs c → keeps_dirs (pass_FileExistsError c).
Proof.
  intros Hc w r w' k. unfold pass_FileExistsError.
  destruct (c w) as [[e|a] w1] eqn:Hcw; [destruct e|];
    intros [= <- <-]; by eapply Hc.
Qed.

Lemma keeps_dirs_os_mkdir name : keeps_dirs (os_mkdir name).
Proof.
  intros w r w' k H Hk.
  destruct (os_mkdir_cases name w) as [[e He]|(p & Hmk & Hwalk & Hp)];
    rewrite H in *; simplify_eq; [done|].
  simpl. rewrite lookup_insert_ne; [done | congruence].
Qed.

Lemma keeps_dirs_makedirs_upto name n : keeps_dirs (makedirs_upto name n).
Proof.
  induction n as [|j IH]; simpl.
  - apply keeps_dirs_bind; [apply keeps_dirs_os_mkdir | intros; apply keeps_dirs_ret].
  - apply keeps_dirs_bind.
    + intros w r w' k. destruct (path_exists (fs w) (take j name)).
      * apply keeps_dirs_ret.
      * by apply keeps_dirs_pass.
    + intros _. apply keeps_dirs_bind; [apply keeps_dirs_os_mkdir | intros; apply keeps_dirs_ret].
Qed.

Lemma keeps_dirs_write_text name text :
  keeps_dirs (with_open_w name (λ file, file_write file text)).
Proof.
  apply keeps_dirs_bind.
  - intros w r w' k. unfold open_w.
    destruct (walk (fs w) [] name) as [e|p]; [by intros [= <- <-]|].
    destruct (fs w !! p) as [[|c]|] eqn:Hp; intros [= <- <-]; [done| |];
      intros Hk; simpl; rewrite lookup_insert_ne; congruence.
  - intros file w r w' k [= <- <-] Hk. simpl.
    rewrite lookup_alter. case_decide; [subst|done]. by rewrite Hk.
Qed.

Lemma rmtree_outside d m k : ¬ d `prefix_of` k → rmtree d m !! k = m !! k.
Proof.
  intros Hout. unfold rmtree.
  destruct (m !! k) as [v|] eqn:Hk.
  - by apply map_lookup_filter_Some.
  - apply map_lookup_filter_None. by left.
Qed.

(** A call of [deploy_to_vercel] that reached the command: where the command
    ran, and what is on the disk afterwards. *)
Lemma deploy_reached_state E self html_content project_name w r w' c :
  deploy_to_vercel E self html_content project_name w = (r, w') →
  deploy_log w' = deploy_log w ++ [c] →
  ∃ temp_dir,
    (mkdtemp (temp_names E) w).1 = inr temp_dir ∧
    call_cwd c = joinpath temp_dir project_name ∧
    call_fs c !! temp_dir = Some Dir ∧
    fs w' = rmtree temp_dir (run_process E (call_cmd c) (call_cwd c) (call_fs c)).2.
Proof.
  unfold deploy_to_vercel, with_TemporaryDirectory, json_dump. unfold bind at 1.
  destruct (mkdtemp (temp_names E) w) as [[e|temp_dir] w1] eqn:Htmp.
  { intros [= <- <-] Hlog. apply fs_only_mkdtemp in Htmp as [(_ & _ & _ & Hd) _].
    rewrite Hd in Hlog. by apply log_grew in Hlog. }
  pose proof (fs_only_mkdtemp _ _ _ _ Htmp) as [Hl1 _].
  pose proof (mkdtemp_made _ _ _ _ Htmp) as [_ Hdir1].
  rewrite joinpath_index_html, joinpath_vercel_json.
  set (project_dir := joinpath temp_dir project_name).
  set (manifest := json_dumps (vercel_config project_name)).
  unfold bind at 1.
  destruct (os_makedirs project_dir w1) as [[e|[]] w2] eqn:Hmk;
    pose proof (fs_only_makedirs_upto _ _ _ _ _ Hmk) as [Hl2 _].
  { intros [= <- <-] Hlog. exfalso.
    destruct (same_logs_trans _ _ _ Hl1 Hl2) as (_ & _ & _ & Hd).
    simpl in Hlog. rewrite Hd in Hlog. by apply log_grew in Hlog. }
  pose proof (keeps_dirs_makedirs_upto _ _ _ _ _ _ Hmk Hdir1) as Hdir2.
  unfold bind at 1.
  destruct (with_open_w (project_dir ++ ["index.html"])
              (λ file, file_write file html_content) w2) as [[e|[]] w3] eqn:Hix;
    pose proof (fs_only_write_text _ _ _ _ _ Hix) as [Hl3 _].
  { intros [= <- <-] Hlog. exfalso.
    destruct (same_logs_trans _ _ _ (same_logs_trans _ _ _ Hl1 Hl2) Hl3) as (_ & _ & _ & Hd).
    simpl in Hlog. rewrite Hd in Hlog. by apply log_grew in Hlog. }
  pose proof (keeps_dirs_write_text _ _ _ _ _ _ Hix Hdir2) as Hdir3.
  unfold bind at 1.
  destruct (with_open_w (project_dir ++ ["vercel.json"])
              (λ file, file_write file manifest) w3) as [[e|[]] w4] eqn:Hvj;
    pose proof (fs_only_write_text _ _ _ _ _ Hvj) as [Hl4 _].
  { intros [= <- <-] Hlog. exfalso.
    destruct (same_logs_trans _ _ _
                (same_logs_trans _ _ _ (same_logs_trans _ _ _ Hl1 Hl2) Hl3) Hl4)
      as (_ & _ & _ & Hd).
    simpl in Hlog. rewrite Hd in Hlog. by apply log_grew in Hlog. }
  pose proof (keeps_dirs_write_text _ _ _ _ _ _ Hvj Hdir3) as Hdir4.
  assert (deploy_log w4 = deploy_log w) as Hd.
  { by destruct (same_logs_trans _ _ _
                   (same_logs_trans _ _ _ (same_logs_trans _ _ _ Hl1 Hl2) Hl3) Hl4)
      as (_ & _ & _ & ?). }
  unfold bind at 1, subprocess_run.
  destruct (run_process E _ project_dir (fs w4)) as [[e|result] m'] eqn:Hrun.
  - intros [= <- <-]. simpl. rewrite Hd. intros [_ <-]%app_inj_tail.
    exists temp_dir. simpl. by rewrite Hrun.
  - destruct (returncode result =? 0)%Z; intros [= <- <-]; simpl; rewrite Hd;
      intros [_ <-]%app_inj_tail; exists temp_dir; simpl; by rewrite Hrun.
Qed.

(* ===================================================================== *)
(** ** What is left on the disk *)

(** In a tree nothing lies below a missing entry. *)
Lemma tree_below m d k :
  tree m → m !! d = None → d `prefix_of` k → m !! k = None.
Proof.
  intros Hm Hd [s ->]. induction s as [|a s IH] using rev_ind.
  - by rewrite app_nil_r.
  - rewrite app_assoc. apply tree_no_child; [done | by rewrite IH].
Qed.

Lemma rmtree_insert_below d k v m :
  d `prefix_of` k → rmtree d (<[k := v]> m) = rmtree d m.
Proof.
  intros Hk. apply map_eq. intros j.
  destruct (decide (d `prefix_of` j)) as [Hj|Hj].
  - by rewrite !rmtree_gone.
  - rewrite !rmtree_outside by done. apply lookup_insert_ne. congruence.
Qed.

Lemma rmtree_fresh d m : tree m → m !! d = None → rmtree d m = m.
Proof.
  intros Hm Hd. apply map_eq. intros j.
  destruct (decide (d `prefix_of` j)) as [Hj|Hj].
  - rewrite rmtree_gone by done. symmetry. by eapply tree_below.
  - by apply rmtree_outside.
Qed.

(** Removing the temporary directory undoes what a run with a project name
    of one component has put on the disk. *)
Lemma rmtree_plain_call self html_content project_name temp_dir n m :
  tree m → m !! temp_dir = None →
  rmtree temp_dir (call_fs (plain_call self html_content project_name temp_dir n m)) = m.
Proof.
  intros Hm Hd. simpl.
  rewrite !rmtree_insert_below; [by apply rmtree_fresh|done| |  |].
  - by apply prefix_app_r.
  - by apply prefix_app_r, prefix_app_r.
  - by apply prefix_app_r, prefix_app_r.
Qed.

(** A call of [deploy_to_vercel] with a project name of one component, on a
    tree on which the temporary directory can be made, in full. *)
Lemma deploy_plain_steps E self html_content project_name w temp_dir n :
  well_formed (fs w) = true →
  (mkdtemp (temp_names E) w).1 = inr temp_dir →
  joinpath temp_dir project_name = temp_dir ++ [n] → n ≠ ".." →
  fs w !! temp_dir = None ∧
  deploy_to_vercel E self html_content project_name w =
  let c := plain_call self html_content project_name temp_dir n (fs w) in
  let out := run_process E (call_cmd c) (call_cwd c) (call_fs c) in
  (match out.1 with inl e => inl e | inr _ => inr tt end,
   {| fs := rmtree temp_dir out.2;
      console := console w ++ report out.1;
      http_log := http_log w;
      chat_log := chat_log w;
      deploy_log := deploy_log w ++ [c] |}).
Proof.
  intros Hm%well_formed_tree Htmp Hjoin Hn.
  destruct (mkdtemp (temp_names E) w) as [r1 w1] eqn:Hmk. simpl in Htmp. subst r1.
  destruct (mkdtemp_result _ _ _ _ Hmk) as (-> & Hfresh & Hclimb).
  split; [done|].
  assert (tree (<[temp_dir := Dir]> (fs w))) as Hm1
    by (by apply (fs_only_mkdtemp _ _ _ _ Hmk)).
  set (project_dir := temp_dir ++ [n]).
  assert (temp_dir ≠ project_dir) as Hne1 by (symmetry; apply longer_ne).
  assert (∀ x, project_dir ≠ project_dir ++ [x]) as Hne2
    by (intros x; symmetry; apply longer_ne).
  assert (∀ x, temp_dir ≠ project_dir ++ [x]) as Hne3.
  { intros x. unfold project_dir. rewrite <- app_assoc. symmetry. apply longer_ne. }
  assert (fs w !! project_dir = None) as Hfresh'
    by (apply tree_no_child; [done | by rewrite Hfresh]).
  assert (∀ x, fs w !! (project_dir ++ [x]) = None) as Hfresh''
    by (intros x; apply tree_no_child; [done | by rewrite Hfresh']).
  assert (".." ∉ project_dir) as Hclimb'.
  { intros [Hin|Hin%list_elem_of_singleton]%elem_of_app; [by apply Hclimb | by apply Hn]. }
  set (m1 := <[temp_dir := Dir]> (fs w)) in *.
  set (m2 := <[project_dir := Dir]> m1).
  assert (m1 !! project_dir = None) as Hfree1
    by (unfold m1; by rewrite lookup_insert_ne).
  assert (tree m2) as Hm2.
  { apply tree_insert; [done | by destruct temp_dir | | by rewrite Hfree1].
    unfold project_dir, m1. by rewrite removelast_last, lookup_insert_eq. }
  assert (m2 !! project_dir = Some Dir) as Hpd2 by apply lookup_insert_eq.
  assert (∀ x, m2 !! (project_dir ++ [x]) = None) as Hfree2.
  { intros x. unfold m2, m1. by rewrite !lookup_insert_ne. }
  assert (walk m2 [] project_dir = inr project_dir) as Hwalk2
    by (apply walk_self; [done | done | by rewrite Hpd2]).
  set (m3 := <[project_dir ++ ["index.html"] := File html_content]> m2).
  assert (m2 ⊆ m3) as Hsub by (by apply insert_subseteq).
  unfold deploy_to_vercel, with_TemporaryDirectory, json_dump. unfold bind at 1.
  rewrite Hmk, joinpath_index_html, joinpath_vercel_json, Hjoin. fold project_dir.
  unfold bind at 1. unfold project_dir at 1.
  rewrite os_makedirs_child;
    [|done|by apply lookup_insert_eq|done|done|done].
  fold project_dir. unfold bind at 1.
  rewrite (write_text_made _ _ _ _ project_dir);
    [|done|done|done|simpl; fold m1 m2; by rewrite Hfree2].
  unfold bind at 1.
  rewrite (write_text_made _ _ _ _ project_dir); cycle 1.
  { simpl. fold m1 m2 m3. by eapply walk_mono. }
  { simpl. fold m1 m2 m3. by eapply lookup_weaken. }
  { done. }
  { simpl. fold m1 m2 m3. unfold m3.
    rewrite lookup_insert_ne by (by intros [= ?]%app_inv_head).
    by rewrite Hfree2. }
  unfold bind at 1, subprocess_run, plain_call. simpl. fold project_dir m1 m2 m3.
  destruct (run_process E _ project_dir _) as [[e|result] m'].
  - simpl. by rewrite app_nil_r.
  - simpl. destruct (returncode result =? 0)%Z; simpl; [|done].
    unfold add_console, set_fs. simpl. by rewrite <- app_assoc.
Qed.

(* ===================================================================== *)
(** ** Further properties of [deploy_to_vercel] *)

(** X1.  With a project name of one component and a deployment command that
    leaves the disk alone, [deploy_to_vercel] leaves the disk as it found it,
    whatever the command's outcome. *)
Theorem deploy_leaves_the_disk_as_found E self html_content project_name w temp_dir n :
  well_formed (fs w) = true →
  (mkdtemp (temp_names E) w).1 = inr temp_dir →
  joinpath temp_dir project_name = temp_dir ++ [n] → n ≠ ".." →
  (∀ cmd cwd m, (run_process E cmd cwd m).2 = m) →
  fs (deploy_to_vercel E self html_content project_name w).2 = fs w.
Proof.
  intros Hwf Htmp Hjoin Hn Hquiet.
  destruct (deploy_plain_steps E self html_content project_name w temp_dir n)
    as [Hfresh ->]; [done..|].
  cbv zeta. simpl fs. rewrite Hquiet.
  apply (rmtree_plain_call self html_content project_name temp_dir n (fs w));
    [by apply well_formed_tree | done].
Qed.

Lemma failed_deployment_leaves_the_disk_as_found :
  fs (deploy_to_vercel scenario_D creator "<html>...</html>" "octocat-portfolio" boot).2
  = disk.
Proof.
  apply (deploy_leaves_the_disk_as_found scenario_D creator "<html>...</html>"
           "octocat-portfolio" boot ["tmp"; "tmpk3x9"] "octocat-portfolio").
  - vm_compute. reflexivity.
  - vm_compute. reflexivity.
  - reflexivity.
  - discriminate.
  - intros cmd cwd m. reflexivity.
Defined.

Lemma grows_ret {A} (a : A) : grows (ret a).
Proof. by intros w r w' [= <- <-]. Qed.

Lemma grows_bind {A B} (c : M A) (f : A → M B) :
  grows c → (∀ a, grows (f a)) → grows (bind c f).
Proof.
  intros Hc Hf w r w'. unfold bind.
  destruct (c w) as [[e|a] w1] eqn:Hcw.
  - intros [= <- <-]. by eapply Hc.
  - intros Hfw. etrans; [by eapply Hc | by eapply Hf].
Qed.

Lemma grows_pass c : grows c → grows (pass_FileExistsError c).
Proof.
  intros Hc w r w'. unfold pass_FileExistsError.
  destruct (c w) as [[e|a] w1] eqn:Hcw; [destruct e|];
    intros [= <- <-]; by eapply Hc.
Qed.

Lemma grows_os_mkdir name : grows (os_mkdir name).
Proof.
  intros w r w' H.
  destruct (os_mkdir_cases name w) as [[e He]|(p & Hmk & Hwalk & Hp)];
    rewrite H in *; simplify_eq; [done|].
  simpl. by apply insert_subseteq.
Qed.

Lemma grows_makedirs_upto name n : grows (makedirs_upto name n).
Proof.
  induction n as [|j IH]; simpl.
  - apply grows_bind; [apply grows_os_mkdir | intros; apply grows_ret].
  - apply grows_bind.
    + intros w r w'. destruct (path_exists (fs w) (take j name)).
      * apply grows_ret.
      * by apply grows_pass.
    + intros _. apply grows_bind; [apply grows_os_mkdir | intros; apply grows_ret].
Qed.

Lemma grows_mkdtemp names : grows (mkdtemp names).
Proof.
  induction names as [|name rest IH]; simpl; [by intros w r w' [= <- <-]|].
  intros w r w'.
  destruct (os_mkdir name w) as [[e|p] w1] eqn:Hmk;
    pose proof (grows_os_mkdir _ _ _ _ Hmk) as Hsub.
  - destruct e; try by intros [= <- <-].
    intros Hrest. etrans; [done | by eapply IH].
  - by intros [= <- <-].
Qed.

(** What was on a tree before the temporary directory was made survives its
    removal. *)
Lemma rmtree_keeps_older (d : path) (m m' : fsmap) :
  tree m → m !! d = None → m ⊆ m' → m ⊆ rmtree d m'.
Proof.
  intros Hm Hd Hsub. apply map_subseteq_spec. intros k v Hk.
  rewrite rmtree_outside.
  - by eapply lookup_weaken.
  - intros Hpre. by rewrite (tree_below m d k) in Hk.
Qed.

(** Making a directory that is there raises, and changes nothing. *)
Lemma os_makedirs_existing k w :
  tree (fs w) → is_Some (fs w !! k) → ".." ∉ k →
  os_makedirs k w = (inl FileExistsError, w).
Proof.
  intros Hm Hk Hclimb. unfold os_makedirs.
  destruct k as [|a q _] using rev_ind.
  - simpl. unfold bind, os_mkdir. simpl. by destruct Hk as [v ->].
  - assert (fs w !! q = Some Dir) as Hq.
    { rewrite <- (removelast_last q a). apply Hm; [done | by destruct q]. }
    assert (".." ∉ q) as Hclimb' by (intros Hin; apply Hclimb, elem_of_app; by left).
    rewrite length_app, Nat.add_1_r. simpl. unfold bind.
    rewrite take_app_length. unfold path_exists.
    rewrite (walk_self _ _ Hm Hclimb') by (by rewrite Hq).
    rewrite Hq. simpl.
    rewrite take_ge by (rewrite length_app; simpl; lia).
    unfold os_mkdir. rewrite (walk_self _ _ Hm Hclimb Hk). by destruct Hk as [v ->].
Qed.

Lemma prefix_snoc_cases {A} (d p : list A) (x : A) :
  d `prefix_of` p ++ [x] → d `prefix_of` p ∨ d = p ++ [x].
Proof.
  intros [s Hs]. destruct s as [|a s' _] using rev_ind.
  - right. by rewrite app_nil_r in Hs.
  - left. rewrite app_assoc in Hs. apply app_inj_tail in Hs as [-> _].
    by apply prefix_app_r.
Qed.

Lemma strip_blank s : blank s = true → strip s = "".
Proof.
  unfold strip. induction s as [|c r IH]; simpl; [done|].
  intros [Hc Hr]%andb_true_iff. rewrite Hc. by apply IH.
Qed.

(** X2.  A project name without any component, such as the empty name,
    ["."] or ["/"], makes [deploy_to_vercel] raise [FileExistsError]: the
    project directory would be the temporary directory itself, or the root.
    The command is not called, nothing is printed, and the disk is as
    before. *)
Theorem project_name_without_component_raises E self html_content project_name w temp_dir :
  well_formed (fs w) = true →
  (mkdtemp (temp_names E) w).1 = inr temp_dir →
  parse_parts project_name = [] →
  ∃ w', deploy_to_vercel E self html_content project_name w = (inl FileExistsError, w') ∧
        fs w' = fs w ∧ console w' = console w ∧ deploy_log w' = deploy_log w.
Proof.
  intros Hm%well_formed_tree Htmp Hparts.
  destruct (mkdtemp (temp_names E) w) as [r1 w1] eqn:Hmk. simpl in Htmp. subst r1.
  destruct (mkdtemp_result _ _ _ _ Hmk) as (-> & Hfresh & Hclimb).
  assert (tree (<[temp_dir := Dir]> (fs w))) as Hm1
    by (by apply (fs_only_mkdtemp _ _ _ _ Hmk)).
  pose proof (fs_only_mkdtemp _ _ _ _ Hmk) as [(Hc & _ & _ & Hd) _].
  unfold deploy_to_vercel, with_TemporaryDirectory. unfold bind at 1. rewrite Hmk.
  unfold bind at 1. rewrite os_makedirs_existing; [|done| |].
  - eexists. split; [done|]. simpl. split_and!; [|done|done].
    rewrite rmtree_insert_below by done. by apply rmtree_fresh.
  - unfold joinpath. rewrite Hparts, app_nil_r. simpl.
    destruct (is_absolute project_name).
    + destruct Hm1 as [-> _]. done.
    + by rewrite lookup_insert_eq.
  - unfold joinpath. rewrite Hparts, app_nil_r.
    destruct (is_absolute project_name); [set_solver | done].
Qed.

Lemma empty_project_name_raises :
  ∃ w', deploy_to_vercel scenario_A creator "<html>...</html>" "" boot
          = (inl FileExistsError, w') ∧
        fs w' = disk ∧ console w' = [] ∧ deploy_log w' = [].
Proof.
  apply (project_name_without_component_raises scenario_A creator "<html>...</html>" ""
           boot ["tmp"; "tmpk3x9"]).
  - vm_compute. reflexivity.
  - vm_compute. reflexivity.
  - reflexivity.
Defined.

(** X3.  When the project directory in which the command ran lies outside
    the temporary directory (the project name was an absolute path, or
    climbed out with [".."]) and the command leaves the disk alone, the
    project directory with its two files is still there after
    [deploy_to_vercel] has returned. *)
Theorem project_directory_outside_persists E self html_content project_name w r w' c
    temp_dir p :
  well_formed (fs w) = true →
  deploy_to_vercel E self html_content project_name w = (r, w') →
  deploy_log w' = deploy_log w ++ [c] →
  (run_process E (call_cmd c) (call_cwd c) (call_fs c)).2 = call_fs c →
  (mkdtemp (temp_names E) w).1 = inr temp_dir →
  walk (call_fs c) [] (call_cwd c) = inr p →
  ¬ temp_dir `prefix_of` p →
  fs w' !! p = Some Dir ∧
  fs w' !! (p ++ ["index.html"]) = Some (File html_content) ∧
  fs w' !! (p ++ ["vercel.json"]) = Some (File (json_dumps (vercel_config project_name))).
Proof.
  intros Hwf Hrun Hlog Hquiet Htmp Hwalk Hout.
  destruct (deploy_reached_state _ _ _ _ _ _ _ _ Hrun Hlog)
    as (d & Htmp' & _ & Hdir & ->).
  rewrite Htmp in Htmp'. injection Htmp' as <-.
  destruct (deploy_reached_inv _ _ _ _ _ _ _ _ Hrun Hlog)
    as (out & m' & _ & _ & _ & _ & _ & _ & Hpack).
  destruct (Hpack Hwf) as (p' & Hwalk' & Hp & Hindex & Hmanifest & _).
  rewrite Hwalk in Hwalk'. injection Hwalk' as <-.
  rewrite Hquiet.
  assert (∀ x text, call_fs c !! (p ++ [x]) = Some (File text) →
            ¬ temp_dir `prefix_of` p ++ [x]) as Hfile.
  { intros x text Hx [Hpre| ->]%prefix_snoc_cases; [done | congruence]. }
  rewrite !rmtree_outside; eauto.
Qed.

Lemma absolute_project_name_leaves_files :
  fs (deploy_to_vercel scenario_A creator "<html>...</html>" "/srv/x" boot).2
    !! ["srv"; "x"] = Some Dir ∧
  fs (deploy_to_vercel scenario_A creator "<html>...</html>" "/srv/x" boot).2
    !! (["srv"; "x"] ++ ["index.html"]) = Some (File "<html>...</html>") ∧
  fs (deploy_to_vercel scenario_A creator "<html>...</html>" "/srv/x" boot).2
    !! (["srv"; "x"] ++ ["vercel.json"]) = Some (File (json_dumps (vercel_config "/srv/x"))).
Proof.
  apply (project_directory_outside_persists scenario_A creator "<html>...</html>" "/srv/x"
           boot
           (deploy_to_vercel scenario_A creator "<html>...</html>" "/srv/x" boot).1
           (deploy_to_vercel scenario_A creator "<html>...</html>" "/srv/x" boot).2
           escaped_call ["tmp"; "tmpk3x9"] ["srv"; "x"]).
  - vm_compute. reflexivity.
  - vm_compute. reflexivity.
  - vm_compute. reflexivity.
  - reflexivity.
  - vm_compute. reflexivity.
  - vm_compute. reflexivity.
  - intros [s Hs]. discriminate.
Defined.

(** X4.  [deploy_to_vercel] does not remove or overwrite anything that was
    on the disk before the call, whatever the project name, as long as the
    deployment command leaves the disk alone. *)
Theorem deploy_keeps_what_was_there E self html_content project_name w :
  well_formed (fs w) = true →
  (∀ cmd cwd m, (run_process E cmd cwd m).2 = m) →
  fs w ⊆ fs (deploy_to_vercel E self html_content project_name w).2.
Proof.
  intros Hm%well_formed_tree Hquiet.
  unfold deploy_to_vercel, with_TemporaryDirectory, json_dump. unfold bind at 1.
  destruct (mkdtemp (temp_names E) w) as [[e|temp_dir] w1] eqn:Htmp.
  { by apply (grows_mkdtemp _ _ _ _ Htmp). }
  pose proof (grows_mkdtemp _ _ _ _ Htmp) as Hsub1.
  pose proof (fs_only_mkdtemp _ _ _ _ Htmp) as [_ Hm1]. specialize (Hm1 Hm).
  pose proof (mkdtemp_made _ _ _ _ Htmp) as [Hfresh _].
  rewrite joinpath_index_html, joinpath_vercel_json.
  set (project_dir := joinpath temp_dir project_name).
  match goal with |- context [let (_, _) := ?body in _] =>
    assert (fs w1 ⊆ fs (body.2)) as Hbody; [|destruct body as [r w'] eqn:Hrun] end.
  2: { simpl in *. apply rmtree_keeps_older; [done | done | by etrans]. }
  unfold bind at 1.
  destruct (os_makedirs project_dir w1) as [[e|[]] w2] eqn:Hmk;
    pose proof (grows_makedirs_upto _ _ _ _ _ Hmk) as Hsub2; [done|].
  destruct (os_makedirs_made _ _ _ Hm1 Hmk) as (p & Hwalk & Hp & Hempty & Hm2).
  unfold bind at 1.
  rewrite (write_text_made _ _ _ _ p); [|done|done|done|by rewrite Hempty].
  assert (p ++ ["vercel.json"] ≠ p ++ ["index.html"]) as Hne
    by (by intros [= ?]%app_inv_head).
  unfold bind at 1.
  rewrite (write_text_made _ _ _ _ p); simpl; cycle 1.
  { eapply walk_mono; [|done]. apply insert_subseteq. apply Hempty. }
  { rewrite lookup_insert_ne; [done|]. apply longer_ne. }
  { done. }
  { rewrite lookup_insert_ne by done. by rewrite Hempty. }
  assert (fs w1 ⊆ <[p ++ ["vercel.json"] := File (json_dumps (vercel_config project_name))]>
                    (<[p ++ ["index.html"] := File html_content]> (fs w2))) as Hsub4.
  { etrans; [done|]. etrans; [apply insert_subseteq, Hempty|].
    apply insert_subseteq. rewrite lookup_insert_ne by done. apply Hempty. }
  unfold bind at 1, subprocess_run. simpl.
  match goal with |- context [run_process E ?cmd ?cwd ?m] =>
    pose proof (Hquiet cmd cwd m) as Hsame;
    destruct (run_process E cmd cwd m) as [[e|result] m'] end;
    simpl in Hsame; subst m'; [done|].
  by destruct (returncode result =? 0)%Z.
Qed.

Lemma absolute_project_name_keeps_the_disk :
  disk ⊆ fs (deploy_to_vercel scenario_A creator "<html>...</html>" "/srv/x" boot).2.
Proof.
  apply (deploy_keeps_what_was_there scenario_A creator "<html>...</html>" "/srv/x" boot).
  - vm_compute. reflexivity.
  - intros cmd cwd m. reflexivity.
Defined.

(** X5.  The deployment command is always [vercel --token <token> -y --prod]
    with the token of the creator, and its working directory is the project
    name joined to the temporary directory that was made for this call. *)
Theorem command_line_and_working_directory E self html_content project_name w r w' c :
  deploy_to_vercel E self html_content project_name w = (r, w') →
  deploy_log w' = deploy_log w ++ [c] →
  call_cmd c = ["vercel"; "--token"; vercel_token self; "-y"; "--prod"] ∧
  ∃ temp_dir, (mkdtemp (temp_names E) w).1 = inr temp_dir ∧
              call_cwd c = joinpath temp_dir project_name ∧
              call_fs c !! temp_dir = Some Dir.
Proof.
  intros Hrun Hlog.
  destruct (deploy_reached_inv _ _ _ _ _ _ _ _ Hrun Hlog)
    as (out & m' & _ & Hcmd & _).
  destruct (deploy_reached_state _ _ _ _ _ _ _ _ Hrun Hlog)
    as (temp_dir & Htmp & Hcwd & Hdir & _).
  eauto.
Qed.

Lemma octocat_command_line :
  call_cmd octocat_call = ["vercel"; "--token"; "secret"; "-y"; "--prod"] ∧
  ∃ temp_dir, (mkdtemp (temp_names scenario_A) boot).1 = inr temp_dir ∧
              call_cwd octocat_call = joinpath temp_dir "octocat-portfolio" ∧
              call_fs octocat_call !! temp_dir = Some Dir.
Proof.
  apply (command_line_and_working_directory scenario_A creator "<html>...</html>"
           "octocat-portfolio" boot
           (deploy_to_vercel scenario_A creator "<html>...</html>" "octocat-portfolio" boot).1
           (deploy_to_vercel scenario_A creator "<html>...</html>" "octocat-portfolio" boot).2
           octocat_call).
  - vm_compute. reflexivity.
  - vm_compute. reflexivity.
Defined.

(** X6.  An exit status of zero counts as success whatever the command has
    printed: when its standard output is white space only, the success lines
    are printed with an empty address. *)
Theorem blank_output_is_reported_as_success E self html_content project_name w r w' c
    result m' :
  deploy_to_vercel E self html_content project_name w = (r, w') →
  deploy_log w' = deploy_log w ++ [c] →
  run_process E (call_cmd c) (call_cwd c) (call_fs c) = (inr result, m') →
  returncode result = 0%Z →
  blank (stdout result) = true →
  r = inr tt ∧
  console w' = console w ++ ["Deployment successful!"; "Your website is live at: "].
Proof.
  intros Hrun Hlog Hout Hrc Hblank.
  destruct (deploy_reached_inv _ _ _ _ _ _ _ _ Hrun Hlog)
    as (out & m0 & Hout0 & _ & -> & Hconsole & _).
  rewrite Hout in Hout0. injection Hout0 as <- <-.
  split; [done|]. rewrite Hconsole. simpl. by rewrite Hrc, strip_blank.
Qed.

Lemma silent_command_is_reported_as_success :
  let E := scenario 200 (Some octocat_profile) (inr "<html>...</html>") (inr silent) in
  (deploy_to_vercel E creator "<html>...</html>" "octocat-portfolio" boot).1 = inr tt ∧
  console (deploy_to_vercel E creator "<html>...</html>" "octocat-portfolio" boot).2
  = ["Deployment successful!"; "Your website is live at: "].
Proof.
  apply (blank_output_is_reported_as_success
           (scenario 200 (Some octocat_profile) (inr "<html>...</html>") (inr silent))
           creator "<html>...</html>" "octocat-portfolio" boot
           (deploy_to_vercel
              (scenario 200 (Some octocat_profile) (inr "<html>...</html>") (inr silent))
              creator "<html>...</html>" "octocat-portfolio" boot).1
           (deploy_to_vercel
              (scenario 200 (Some octocat_profile) (inr "<html>...</html>") (inr silent))
              creator "<html>...</html>" "octocat-portfolio" boot).2
           octocat_call silent (call_fs octocat_call)).
  - vm_compute. reflexivity.
  - vm_compute. reflexivity.
  - reflexivity.
  - reflexivity.
  - reflexivity.
Defined.

(* ===================================================================== *)
(** ** Further properties of [create_portfolio_for_github_user] and of the
    script *)

(** The logs after a call of [deploy_to_vercel]. *)
Lemma deploy_logs E self html_content project_name w :
  let w' := (deploy_to_vercel E self html_content project_name w).2 in
  http_log w' = http_log w ∧ chat_log w' = chat_log w ∧
  (deploy_log w' = deploy_log w ∨ ∃ c, deploy_log w' = deploy_log w ++ [c]).
Proof.
  pose proof (deploy_to_vercel_run E self html_content project_name w) as Hcase.
  destruct (deploy_to_vercel E self html_content project_name w) as [r w'].
  inversion Hcase as [e w0 Hsame|c0 out m' w0 _ _ Hlog Hhttp Hchat]; subst; simpl.
  - destruct Hsame as (_ & -> & -> & ->). auto.
  - eauto.
Qed.

(** What [deploy_to_vercel] has printed, by the way it ends. *)
Lemma deploy_console E self html_content project_name w :
  match (deploy_to_vercel E self html_content project_name w).1 with
  | inl _ => console (deploy_to_vercel E self html_content project_name w).2 = console w
  | inr _ => ∃ lines, lines ≠ [] ∧
             console (deploy_to_vercel E self html_content project_name w).2
             = console w ++ lines
  end.
Proof.
  pose proof (deploy_to_vercel_run E self html_content project_name w) as Hcase.
  destruct (deploy_to_vercel E self html_content project_name w) as [r w'].
  inversion Hcase as [e w0 Hsame|c0 out m' w0 _ _ _ _ _ Hconsole]; subst; simpl.
  - by destruct Hsame as (-> & _).
  - destruct out as [e|result]; simpl in *; [by rewrite Hconsole, app_nil_r|].
    eexists. split; [|done]. by destruct (returncode result =? 0)%Z.
Qed.

(** Every run fetches the profile address of the user, once. *)
Lemma create_portfolio_fetches_once E self username w :
  http_log (create_portfolio_for_github_user E self username w).2
  = http_log w ++ [profile_url username].
Proof.
  rewrite create_portfolio_steps. cbv zeta.
  destruct (requests_get E (profile_url username)) as [e|response]; [done|].
  destruct (status_code response =? 200)%Z; [|done].
  destruct (response_json response) as [profile|]; [|done].
  destruct (chat_model E (generation_call self profile)) as [e|html_content]; [done|].
  by destruct (deploy_logs E self html_content (username +:+ "-portfolio")
                 (log_chat (generation_call self profile)
                    (log_http (profile_url username) w))) as (-> & _).
Qed.

(** A call of the chat model in a run is the call for the profile that was
    fetched. *)
Lemma generation_call_logged E self username w r w' request :
  create_portfolio_for_github_user E self username w = (r, w') →
  chat_log w' = chat_log w ++ [request] →
  ∃ response profile,
    requests_get E (profile_url username) = inr response ∧
    status_code response = 200%Z ∧
    response_json response = Some profile ∧
    request = generation_call self profile.
Proof.
  rewrite create_portfolio_steps. cbv zeta.
  destruct (requests_get E (profile_url username)) as [e|response] eqn:Hget;
    [intros [= <- <-] Hlog; by apply log_grew in Hlog|].
  destruct (status_code response =? 200)%Z eqn:Hstatus;
    [|intros [= <- <-] Hlog; by apply log_grew in Hlog].
  apply Z.eqb_eq in Hstatus.
  destruct (response_json response) as [profile|] eqn:Hbody;
    [|intros [= <- <-] Hlog; by apply log_grew in Hlog].
  assert (chat_log w' = chat_log w ++ [generation_call self profile] →
          chat_log w' = chat_log w ++ [request] →
          request = generation_call self profile) as Hsame.
  { intros -> [_ <-]%app_inj_tail. done. }
  intros Hrun Hlog. exists response, profile. split_and!; [done..|].
  apply Hsame; [|done].
  destruct (chat_model E (generation_call self profile)) as [e|html_content].
  - by injection Hrun as <- <-.
  - by apply deploy_keeps_chat_log in Hrun.
Qed.

(** X7.  In every run, whatever its outcome, the profile address of the user
    is fetched exactly once, the chat model is called at most once, and the
    deployment command is called at most once, and only after a call of the
    chat model that returned a text. *)
Theorem each_collaborator_called_at_most_once E self username w :
  let w' := (create_portfolio_for_github_user E self username w).2 in
  http_log w' = http_log w ++ ["https://api.github.com/users/" +:+ username] ∧
  (chat_log w' = chat_log w ∨ ∃ request, chat_log w' = chat_log w ++ [request]) ∧
  (deploy_log w' = deploy_log w ∨
   ∃ c request html_content,
     deploy_log w' = deploy_log w ++ [c] ∧
     chat_log w' = chat_log w ++ [request] ∧
     chat_model E request = inr html_content).
Proof.
  rewrite create_portfolio_steps. cbv zeta. fold (profile_url username).
  destruct (requests_get E (profile_url username)) as [e|response];
    [by split_and!; auto|].
  destruct (status_code response =? 200)%Z; [|by split_and!; auto].
  destruct (response_json response) as [profile|]; [|by split_and!; auto].
  destruct (chat_model E (generation_call self profile)) as [e|html_content] eqn:Hchat;
    [split; [done|]; split; [right; by eexists | by left]|].
  destruct (deploy_logs E self html_content (username +:+ "-portfolio")
              (log_chat (generation_call self profile) (log_http (profile_url username) w)))
    as (Hhttp & Hc & Hd).
  cbv zeta in *. simpl in Hhttp, Hc, Hd.
  split; [done|]. split; [right; by exists (generation_call self profile)|].
  destruct Hd as [Hd|[c Hd]]; [by left|].
  right. by exists c, (generation_call self profile), html_content.
Qed.



(** X9.  A run that ends with an exception has printed nothing, and a run
    that returns has printed at least one line: the method never raises
    after reporting, and never returns without a report. *)
Theorem raises_silently_and_returns_with_a_report E self username w :
  match (create_portfolio_for_github_user E self username w).1 with
  | inl _ => console (create_portfolio_for_github_user E self username w).2 = console w
  | inr _ => ∃ lines, lines ≠ [] ∧
             console (create_portfolio_for_github_user E self username w).2
             = console w ++ lines
  end.
Proof.
  rewrite create_portfolio_steps. cbv zeta.
  destruct (requests_get E (profile_url username)) as [e|response]; [done|].
  destruct (status_code response =? 200)%Z;
    [|simpl; eexists; split; [|reflexivity]; done].
  destruct (response_json response) as [profile|]; [|done].
  destruct (chat_model E (generation_call self profile)) as [e|html_content]; [done|].
  apply (deploy_console E self html_content (username +:+ "-portfolio")
           (log_chat (generation_call self profile) (log_http (profile_url username) w))).
Qed.



Lemma unset_false v : unset v = false ↔ ∃ s, v = Some s ∧ s ≠ "".
Proof.
  destruct v as [s|]; simpl; split.
  - intros Hne%String.eqb_neq. eauto.
  - intros (s0 & [= <-] & Hne). by apply String.eqb_neq.
  - done.
  - by intros (s & ? & _).
Qed.

(** The script with both credentials is one run for the placeholder user. *)
Lemma script_with_credentials E w token key :
  getenv E "VERCEL_TOKEN" = Some token → token ≠ "" →
  getenv E "OPENAI_API_KEY" = Some key → key ≠ "" →
  script E w
  = create_portfolio_for_github_user E {| vercel_token := token; openai_api_key := key |}
      "add_your_username" w.
Proof.
  intros Htoken Hne Hkey Hne'. unfold script. rewrite Htoken, Hkey. simpl.
  apply String.eqb_neq in Hne, Hne'. by rewrite Hne, Hne'.
Qed.

Lemma script_without_credentials E w :
  unset (getenv E "VERCEL_TOKEN") || unset (getenv E "OPENAI_API_KEY") = true →
  script E w
  = (inl (ValueError
            "Environment variables for VERCEL_TOKEN or OPENAI_API_KEY are not set."), w).
Proof. intros Hunset. unfold script. by rewrite Hunset. Qed.

Lemma script_cases E :
  (∃ token key,
     getenv E "VERCEL_TOKEN" = Some token ∧ token ≠ "" ∧
     getenv E "OPENAI_API_KEY" = Some key ∧ key ≠ "") ∨
  unset (getenv E "VERCEL_TOKEN") || unset (getenv E "OPENAI_API_KEY") = true.
Proof.
  destruct (unset (getenv E "VERCEL_TOKEN")) eqn:Htoken; [by right|].
  destruct (unset (getenv E "OPENAI_API_KEY")) eqn:Hkey; [by right|].
  apply unset_false in Htoken as (token & ? & ?), Hkey as (key & ? & ?).
  left. by exists token, key.
Qed.

(** X11.  The script starts a run, for the placeholder user, exactly when
    both credentials are set and not empty: an empty credential counts as a
    missing one, and then no address is fetched. *)
Theorem script_runs_with_both_credentials_only E w :
  (∃ token key,
     getenv E "VERCEL_TOKEN" = Some token ∧ token ≠ "" ∧
     getenv E "OPENAI_API_KEY" = Some key ∧ key ≠ "")
  ↔ http_log (script E w).2
    = http_log w ++ ["https://api.github.com/users/add_your_username"].
Proof.
  split.
  - intros (token & key & Htoken & Hne & Hkey & Hne').
    rewrite (script_with_credentials E w token key) by done.
    apply create_portfolio_fetches_once.
  - intros Hlog. destruct (script_cases E) as [?|Hunset]; [done|].
    rewrite script_without_credentials in Hlog by done.
    by apply log_grew in Hlog.
Qed.

(** X12.  In a run of the script the deployment command gets the
    [VERCEL_TOKEN] of the environment as its token. *)
Theorem script_passes_the_vercel_token E w r w' c :
  script E w = (r, w') →
  deploy_log w' = deploy_log w ++ [c] →
  ∃ token, getenv E "VERCEL_TOKEN" = Some token ∧
           call_cmd c = ["vercel"; "--token"; token; "-y"; "--prod"].
Proof.
  intros Hrun Hlog.
  destruct (script_cases E) as [(token & key & Htoken & Hne & Hkey & Hne')|Hunset].
  - rewrite (script_with_credentials E w token key) in Hrun by done.
    exists token. split; [done|].
    revert Hrun Hlog. rewrite create_portfolio_steps. cbv zeta.
    destruct (requests_get E (profile_url "add_your_username")) as [e|response];
      [intros [= <- <-] Hlog; by apply log_grew in Hlog|].
    destruct (status_code response =? 200)%Z;
      [|intros [= <- <-] Hlog; by apply log_grew in Hlog].
    destruct (response_json response) as [profile|];
      [|intros [= <- <-] Hlog; by apply log_grew in Hlog].
    destruct (chat_model E _) as [e|html_content];
      [intros [= <- <-] Hlog; by apply log_grew in Hlog|].
    intros Hrun Hlog.
    by destruct (deploy_reached_inv _ _ _ _ _ _ _ _ Hrun Hlog)
      as (out & m' & _ & Hcmd & _).
  - rewrite script_without_credentials in Hrun by done.
    injection Hrun as <- <-. by apply log_grew in Hlog.
Qed.

Lemma placeholder_run_uses_the_token :
  ∃ token, getenv scenario_A "VERCEL_TOKEN" = Some token ∧
           call_cmd (plain_call creator "<html>...</html>" "add_your_username-portfolio"
                       ["tmp"; "tmpk3x9"] "add_your_username-portfolio" disk)
           = ["vercel"; "--token"; token; "-y"; "--prod"].
Proof.
  apply (script_passes_the_vercel_token scenario_A boot
           (script scenario_A boot).1 (script scenario_A boot).2).
  - vm_compute. reflexivity.
  - vm_compute. reflexivity.
Defined.

(** X13.  In a run of the script the chat model is called with the
    [OPENAI_API_KEY] of the environment. *)
Theorem script_passes_the_openai_key E w r w' request :
  script E w = (r, w') →
  chat_log w' = chat_log w ++ [request] →
  getenv E "OPENAI_API_KEY" = Some (chat_api_key request).
Proof.
  intros Hrun Hlog.
  destruct (script_cases E) as [(token & key & Htoken & Hne & Hkey & Hne')|Hunset].
  - rewrite (script_with_credentials E w token key) in Hrun by done.
    destruct (generation_call_logged _ _ _ _ _ _ _ Hrun Hlog)
      as (response & profile & _ & _ & _ & ->).
    done.
  - rewrite script_without_credentials in Hrun by done.
    injection Hrun as <- <-. by apply log_grew in Hlog.
Qed.

Lemma placeholder_run_uses_the_key :
  getenv scenario_A "OPENAI_API_KEY"
  = Some (chat_api_key (generation_call creator octocat_profile)).
Proof.
  apply (script_passes_the_openai_key scenario_A boot
           (script scenario_A boot).1 (script scenario_A boot).2).
  - vm_compute. reflexivity.
  - vm_compute. reflexivity.
Defined.

(* ===================================================================== *)
(** ** The project name in the manifest *)






